(** * Room registry and consensus check of the voting back end

    A shallow embedding of the sockets module in its latest revision (the
    one with [upvote] and [checkConsensus]): the two process-wide objects
    [rooms] and [users], the helpers and the seven socket handlers
    registered by [create].  Handlers run in a small state/output/exception
    monad, so that a [TypeError] raised half-way leaves the mutations made
    before it in place, as in JavaScript.

    What is left out: [console.log] and [console.error], and
    [socket.join], which only tells the transport where broadcasts go. *)

From Stdlib Require Import ZArith List String Ascii Lia.
From Stdlib Require Strings.Byte.
From stdpp Require Import gmap strings list fin_maps.

Set Warnings "-register-all".
Local Open Scope Z_scope.
Local Open Scope string_scope.

(** ** JavaScript values carried by socket payloads *)

Module Js.

(** Payloads are deserialised JSON, plus [undefined] for a missing
    argument. *)
Inductive Value : Type :=
| Undefined
| Null
| Bool (b : bool)
| Number (n : Z)
| Str (s : string)
| Array (items : list Value)
| Object (fields : list (string * Value)).

(** The prototype objects [Object.getPrototypeOf] can answer with. *)
Inductive Prototype : Set :=
| ObjectPrototype
| ArrayPrototype
| StringPrototype
| NumberPrototype
| BooleanPrototype.

Definition prototype_eqb (p q : Prototype) : bool :=
  match p, q with
  | ObjectPrototype, ObjectPrototype
  | ArrayPrototype, ArrayPrototype
  | StringPrototype, StringPrototype
  | NumberPrototype, NumberPrototype
  | BooleanPrototype, BooleanPrototype => true
  | _, _ => false
  end.

(** [v != null]: the loose comparison also equates [undefined] with
    [null]. *)
Definition looseNotNull (v : Value) : bool :=
  match v with
  | Undefined | Null => false
  | _ => true
  end.

(** [Object.getPrototypeOf(v)]; primitives are boxed first, and the call
    has no answer (it throws) on [null] and [undefined]. *)
Definition getPrototypeOf (v : Value) : option Prototype :=
  match v with
  | Undefined | Null => None
  | Bool _ => Some BooleanPrototype
  | Number _ => Some NumberPrototype
  | Str _ => Some StringPrototype
  | Array _ => Some ArrayPrototype
  | Object _ => Some ObjectPrototype
  end.

(** The exceptions the handlers can raise. *)
Inductive Error : Set :=
| TypeError.

(** The second argument of a handler: the acknowledgement function the
    transport passes when the client asked for one, or anything else. *)
Inductive Callback : Set :=
| AckFunction
| NotAFunction.

(** The own members of [Object.prototype], which every object literal
    inherits, each with the number of entries [Array.from] reads from
    it: the [length] of the function, and none for the prototype object
    behind [__proto__]. *)
Definition objectPrototype : list (string * nat) :=
  [ ("constructor", 1%nat);
    ("__defineGetter__", 2%nat);
    ("__defineSetter__", 2%nat);
    ("hasOwnProperty", 1%nat);
    ("__lookupGetter__", 1%nat);
    ("__lookupSetter__", 1%nat);
    ("isPrototypeOf", 1%nat);
    ("propertyIsEnumerable", 1%nat);
    ("toString", 0%nat);
    ("valueOf", 0%nat);
    ("__proto__", 0%nat);
    ("toLocaleString", 0%nat) ].

Fixpoint inherited (key : string) (members : list (string * nat)) : option nat :=
  match members with
  | [] => None
  | (name, len) :: rest =>
      if String.eqb key name then Some len else inherited key rest
  end.

(** [c.toUpperCase()] on one ASCII character. *)
Definition upperChar (c : ascii) : ascii :=
  let n := N_of_ascii c in
  if ((97 <=? n) && (n <=? 122))%N then ascii_of_N (n - 32) else c.

Fixpoint toUpperCase (s : string) : string :=
  match s with
  | EmptyString => EmptyString
  | String c rest => String (upperChar c) (toUpperCase rest)
  end.

(** One digit of [buffer.toString("hex")]. *)
Definition hexDigit (d : N) : ascii :=
  match d with
  | 0 => "0" | 1 => "1" | 2 => "2" | 3 => "3" | 4 => "4" | 5 => "5"
  | 6 => "6" | 7 => "7" | 8 => "8" | 9 => "9" | 10 => "a" | 11 => "b"
  | 12 => "c" | 13 => "d" | 14 => "e" | _ => "f"
  end%N%char.

Fixpoint toHex (bytes : list Byte.byte) : string :=
  match bytes with
  | [] => EmptyString
  | b :: rest =>
      let n := Byte.to_N b in
      String (hexDigit (n / 16)) (String (hexDigit (n mod 16)) (toHex rest))
  end.

End Js.

(** ** The registry: [rooms] and [users] *)

(** A [User] as built by [createUser]. Media ids are the strings clients
    send, which a [Set] compares by value. *)
Record User : Type := mkUser {
  roomId : string;
  server : Js.Value;
  library : Js.Value;
  upvoted : gset string
}.

(** [rooms] maps a room id to a [Set] of socket ids, kept here in
    insertion order as a [Set] iterates; [users] maps a socket id to its
    [User]. Both hold the own properties of the two object literals.
    A socket id is a random token the transport generates, so
    [users[socket.id]] is read among the own properties; a room id comes
    from the client, and [rooms[id]] also sees what an object literal
    inherits (see [rooms_get]). *)
Record Registry : Type := mkRegistry {
  rooms : gmap string (list string);
  users : gmap string User
}.

Definition initial : Registry := mkRegistry ∅ ∅.

(** What the handlers make observable: a call of the acknowledgement
    callback of a socket, or [io.to(room).emit(...)]. The event names of
    [socketMessages.js] are the constructors. *)
Inductive Reply : Type :=
| ReplyId (id : string)
| ReplyJoined (server library : Js.Value)
| ReplyStatus (success : bool) (message : string).

Inductive Message : Type :=
| userCount (count : Z)
| consensusReached (id : string).

Inductive Event : Type :=
| Ack (socket : string) (r : Reply)
| Emit (room : string) (m : Message).

(** ** Handlers as computations *)

Inductive Completion (A : Type) : Type :=
| Normal (a : A)
| Throw (e : Js.Error)
| Retrying.
Arguments Normal {A} a.
Arguments Throw {A} e.
Arguments Retrying {A}.

Record Run (A : Type) : Type := mkRun {
  outcome : Completion A;
  registry : Registry;
  events : list Event
}.
Arguments mkRun {A} _ _ _.
Arguments outcome {A} _.
Arguments registry {A} _.
Arguments events {A} _.

Definition M (A : Type) : Type := Registry -> Run A.

Definition ret {A} (a : A) : M A := fun st => mkRun (Normal a) st [].

Definition bind {A B} (m : M A) (k : A -> M B) : M B :=
  fun st =>
    match m st with
    | mkRun (Normal a) st' ev =>
        match k a st' with
        | mkRun o st'' ev' => mkRun o st'' (ev ++ ev')
        end
    | mkRun (Throw e) st' ev => mkRun (Throw e) st' ev
    | mkRun Retrying st' ev => mkRun Retrying st' ev
    end.

Definition throw {A} (e : Js.Error) : M A := fun st => mkRun (Throw e) st [].
Definition retrying {A} : M A := fun st => mkRun Retrying st [].
Definition getRooms : M (gmap string (list string)) :=
  fun st => mkRun (Normal (rooms st)) st [].
Definition getUsers : M (gmap string User) :=
  fun st => mkRun (Normal (users st)) st [].
Definition putRooms (rs : gmap string (list string)) : M unit :=
  fun st => mkRun (Normal tt) (mkRegistry rs (users st)) [].
Definition putUsers (us : gmap string User) : M unit :=
  fun st => mkRun (Normal tt) (mkRegistry (rooms st) us) [].
Definition emit (e : Event) : M unit := fun st => mkRun (Normal tt) st [e].

Notation "'let!' x ':=' m 'in' k" := (bind m (fun x => k))
  (at level 10, x name, m at level 100, k at level 200).
Notation "m ';;;' k" := (bind m (fun _ => k))
  (at level 100, k at level 200, right associativity).

(** ** Helpers of [index.js] *)

(** [getIdString]: two random bytes, hex encoded, upper-cased. The bytes
    are the draw of [crypto.randomBytes(2)]. *)
Definition getIdString (draw : Byte.byte * Byte.byte) : string :=
  Js.toUpperCase (Js.toHex [fst draw; snd draw]).

(** [generateRoomId]: draw again while the id is an own property of
    [rooms]. The random source is the list of successive draws; [None]
    when every supplied draw collided. *)
Fixpoint generateRoomId (draws : list (Byte.byte * Byte.byte))
    (rs : gmap string (list string)) : option string :=
  match draws with
  | [] => None
  | draw :: rest =>
      let id := getIdString draw in
      match rs !! id with
      | Some _ => generateRoomId rest rs
      | None => Some id
      end
  end.

Definition createUser (roomId : string) : User :=
  mkUser roomId (Js.Str "") (Js.Str "") ∅.

(** The value of the expression [rooms[id]]: an own [Set], a member
    inherited from [Object.prototype], or [undefined]. *)
Inductive RoomsEntry : Type :=
| OwnSet (members : list string)
| Inherited (arrayLength : nat)
| Missing.

Definition rooms_get (rs : gmap string (list string)) (id : string) : RoomsEntry :=
  match rs !! id with
  | Some members => OwnSet members
  | None =>
      match Js.inherited id Js.objectPrototype with
      | Some len => Inherited len
      | None => Missing
      end
  end.

Definition truthy (e : RoomsEntry) : bool :=
  match e with
  | Missing => false
  | _ => true
  end.

(** [entry.size]: only a [Set] has one. *)
Definition size_of (e : RoomsEntry) : option nat :=
  match e with
  | OwnSet members => Some (length members)
  | _ => None
  end.

(** [Set.prototype.add] and [Set.prototype.delete] on insertion-ordered
    members. *)
Definition set_add (x : string) (members : list string) : list string :=
  if bool_decide (x ∈ members) then members else members ++ [x].

Definition set_delete (x : string) (members : list string) : list string :=
  filter (fun y => y ≠ x) members.

(** [rooms[id].add(x)] and [rooms[id].delete(x)]: calling a method that
    the entry does not have raises. *)
Definition rooms_add (id x : string) : M unit :=
  let! rs := getRooms in
  match rooms_get rs id with
  | OwnSet members => putRooms (<[id := set_add x members]> rs)
  | _ => throw Js.TypeError
  end.

Definition rooms_delete (id x : string) : M unit :=
  let! rs := getRooms in
  match rooms_get rs id with
  | OwnSet members => putRooms (<[id := set_delete x members]> rs)
  | _ => throw Js.TypeError
  end.

(** [callback(reply)] on the socket [sid]. *)
Definition call (callback : Js.Callback) (sid : string) (r : Reply) : M unit :=
  match callback with
  | Js.AckFunction => emit (Ack sid r)
  | Js.NotAFunction => throw Js.TypeError
  end.

(** [getPlexInformationForRoom]: the descriptors of the first socket id
    the room's [Set] iterates ([undefined], read as the key "undefined",
    when the [Set] is empty); [None] is the function falling off its end
    when [rooms[id]] is falsy. *)
Definition getPlexInformationForRoom (id : string) : M (option (Js.Value * Js.Value)) :=
  let! rs := getRooms in
  match rooms_get rs id with
  | Missing => ret None
  | Inherited _ => throw Js.TypeError
  | OwnSet members =>
      let! us := getUsers in
      match us !! default "undefined" (head members) with
      | Some roomOwner => ret (Some (server roomOwner, library roomOwner))
      | None => throw Js.TypeError
      end
  end.

(** [isObject]. *)
Definition isObject (parameter : Js.Value) : bool :=
  Js.looseNotNull parameter &&
  match Js.getPrototypeOf parameter with
  | Some p => Js.prototype_eqb p Js.ObjectPrototype
  | None => false
  end.

(** [size || -1]: [undefined] and [0] are both falsy. *)
Definition or_minus_one (size : option nat) : Z :=
  match size with
  | Some (S n) => Z.of_nat (S n)
  | _ => -1
  end.

(** [emitRoomUserCount]. *)
Definition emitRoomUserCount (id : string) : M unit :=
  let! rs := getRooms in
  let count := or_minus_one (size_of (rooms_get rs id)) in
  emit (Emit id (userCount count)).

(** [Array.from(entry)]: the members of a [Set]; an inherited function is
    array-like, with [undefined] at every index, and [undefined] used as a
    key reads the property named "undefined". *)
Definition array_from (e : RoomsEntry) : list string :=
  match e with
  | OwnSet members => members
  | Inherited len => repeat "undefined" len
  | Missing => []
  end.

(** [Array.prototype.every], stopping at the first [false]. *)
Fixpoint every {A} (p : A -> M bool) (l : list A) : M bool :=
  match l with
  | [] => ret true
  | x :: rest =>
      let! b := p x in
      if b then every p rest else ret false
  end.

(** [users[socketId].upvoted.has(mediaId)]. *)
Definition has_upvoted (mediaId socketId : string) : M bool :=
  let! us := getUsers in
  match us !! socketId with
  | Some u => ret (bool_decide (mediaId ∈ upvoted u))
  | None => throw Js.TypeError
  end.

(** [checkConsensus]. *)
Definition checkConsensus (roomId mediaId : string) : M unit :=
  let! rs := getRooms in
  if negb (truthy (rooms_get rs roomId)) then ret tt
  else
    let usersInRoom := array_from (rooms_get rs roomId) in
    let! reached := every (has_upvoted mediaId) usersInRoom in
    if reached then emit (Emit roomId (consensusReached mediaId)) else ret tt.

(** ** The handlers registered by [create]

    [sid] is [socket.id]; a room id or media id received from the client
    is the string it is used as when it keys [rooms] or an upvoted set. *)

(** [users[sid].server = v], [users[sid].library = v] and
    [users[sid].upvoted.add(id)]: assignments through the record held in
    [users]. *)
Definition set_server (sid : string) (v : Js.Value) : M unit :=
  let! us := getUsers in
  match us !! sid with
  | Some u => putUsers (<[sid := mkUser (roomId u) v (library u) (upvoted u)]> us)
  | None => throw Js.TypeError
  end.

Definition set_library (sid : string) (v : Js.Value) : M unit :=
  let! us := getUsers in
  match us !! sid with
  | Some u => putUsers (<[sid := mkUser (roomId u) (server u) v (upvoted u)]> us)
  | None => throw Js.TypeError
  end.

Definition upvoted_add (sid id : string) : M unit :=
  let! us := getUsers in
  match us !! sid with
  | Some u =>
      putUsers (<[sid := mkUser (roomId u) (server u) (library u) ({[id]} ∪ upvoted u)]> us)
  | None => throw Js.TypeError
  end.

(** [typeof callback == "function"]. *)
Definition is_function (callback : Js.Callback) : bool :=
  match callback with
  | Js.AckFunction => true
  | Js.NotAFunction => false
  end.

Definition disconnect (sid : string) : M unit :=
  let! us := getUsers in
  match us !! sid with
  | Some user =>
      let id := roomId user in
      let! rs := getRooms in
      (if truthy (rooms_get rs id) then
         rooms_delete id sid ;;;
         let! rs' := getRooms in
         match size_of (rooms_get rs' id) with
         | Some O => putRooms (delete id rs')
         | _ => emitRoomUserCount id
         end
       else ret tt) ;;;
      let! us' := getUsers in
      putUsers (delete sid us')
  | None => ret tt
  end.

Definition createRoom (sid : string) (callback : Js.Callback)
    (draws : list (Byte.byte * Byte.byte)) : M unit :=
  let! rs := getRooms in
  match generateRoomId draws rs with
  | None => retrying
  | Some id =>
      putRooms (<[id := []]> rs) ;;;
      rooms_add id sid ;;;
      let! us := getUsers in
      putUsers (<[sid := createUser id]> us) ;;;
      call callback sid (ReplyId id) ;;;
      emitRoomUserCount id
  end.

Definition joinRoom (sid id : string) (callback : Js.Callback) : M unit :=
  let! rs := getRooms in
  if truthy (rooms_get rs id) then
    rooms_add id sid ;;;
    let! us := getUsers in
    putUsers (<[sid := createUser id]> us) ;;;
    let! info := getPlexInformationForRoom id in
    match info with
    | Some (server, library) =>
        set_server sid server ;;;
        set_library sid library ;;;
        call callback sid (ReplyJoined server library) ;;;
        emitRoomUserCount id
    | None => throw Js.TypeError
    end
  else
    call callback sid
      (ReplyStatus false ("Unable to find room with the Id: " +:+ id)).

Definition setUserServer (sid : string) (server : Js.Value)
    (callback : Js.Callback) : M unit :=
  let! us := getUsers in
  match us !! sid with
  | Some user =>
      if isObject server then
        set_server sid server ;;;
        call callback sid (ReplyStatus true "Updated the server for the user.")
      else
        call callback sid
          (ReplyStatus false
             "Failed to update the Plex.tv server. An invalid server object was received.")
  | None =>
      call callback sid
        (ReplyStatus false ("Unable to find user with the Id: " +:+ sid))
  end.

Definition setUserLibrary (sid : string) (library : Js.Value)
    (callback : Js.Callback) : M unit :=
  let! us := getUsers in
  match us !! sid with
  | Some user =>
      if isObject library then
        set_library sid library ;;;
        call callback sid (ReplyStatus true "Updated the library for the user.")
      else
        call callback sid
          (ReplyStatus false
             "Failed to update the Plex.tv library. An invalid library object was received.")
  | None =>
      call callback sid
        (ReplyStatus false ("Unable to find user with the Id: " +:+ sid))
  end.

Definition requestUserCount (sid id : string) (callback : Js.Callback) : M unit :=
  let! rs := getRooms in
  if truthy (rooms_get rs id) then emitRoomUserCount id else ret tt.

Definition upvote (sid id : string) (callback : Js.Callback) : M unit :=
  let! us := getUsers in
  match us !! sid with
  | Some user =>
      if negb (bool_decide (id ∈ upvoted user)) then
        upvoted_add sid id ;;;
        (if is_function callback then
           call callback sid (ReplyStatus true "Upvoted successfully.")
         else ret tt) ;;;
        checkConsensus (roomId user) id
      else ret tt
  | None =>
      call callback sid
        (ReplyStatus false ("Unable to find user with the Id: " +:+ sid))
  end.

(** ** Runs of the server

    [create] registers the seven handlers on every connection; a client
    message then runs one of them to completion. *)
Inductive Request : Type :=
| Disconnect
| CreateRoom (callback : Js.Callback) (draws : list (Byte.byte * Byte.byte))
| JoinRoom (id : string) (callback : Js.Callback)
| SetUserServer (server : Js.Value) (callback : Js.Callback)
| SetUserLibrary (library : Js.Value) (callback : Js.Callback)
| RequestUserCount (id : string) (callback : Js.Callback)
| Upvote (id : string) (callback : Js.Callback).

Definition handle (sid : string) (req : Request) : M unit :=
  match req with
  | Disconnect => disconnect sid
  | CreateRoom callback draws => createRoom sid callback draws
  | JoinRoom id callback => joinRoom sid id callback
  | SetUserServer v callback => setUserServer sid v callback
  | SetUserLibrary v callback => setUserLibrary sid v callback
  | RequestUserCount id callback => requestUserCount sid id callback
  | Upvote id callback => upvote sid id callback
  end.

(** The registries a server can be in. Nothing in the repository catches
    what a handler raises; whether or not the process outlives it, the
    mutations made before a [TypeError] stay, so a handler extends a run
    however it ended. *)
Inductive reachable : Registry -> Prop :=
| reachable_initial : reachable initial
| reachable_handle st sid req :
    reachable st ->
    reachable (registry (handle sid req st)).

(** Runs in which a connection asks to create or join a room only while
    it has no [User]. *)
Definition newcomer (st : Registry) (sid : string) (req : Request) : Prop :=
  match req with
  | CreateRoom _ _ | JoinRoom _ _ => users st !! sid = None
  | _ => True
  end.

Inductive reachable_by_newcomers : Registry -> Prop :=
| newcomers_initial : reachable_by_newcomers initial
| newcomers_handle st sid req :
    reachable_by_newcomers st ->
    newcomer st sid req ->
    reachable_by_newcomers (registry (handle sid req st)).

(** Running a list of requests from a registry, stopping at the first one
    that does not complete. *)
Fixpoint run_all (reqs : list (string * Request)) : M unit :=
  match reqs with
  | [] => ret tt
  | (sid, req) :: rest => handle sid req ;;; run_all rest
  end.

(** The scan [every] makes over the members of a room, as a function of
    [users]. *)
Fixpoint every_upvoted (us : gmap string User) (mediaId : string)
    (members : list string) : Completion bool :=
  match members with
  | [] => Normal true
  | socketId :: rest =>
      match us !! socketId with
      | Some u =>
          if bool_decide (mediaId ∈ upvoted u)
          then every_upvoted us mediaId rest
          else Normal false
      | None => Throw Js.TypeError
      end
  end.

(** The one handler that reports a member count on request. *)
Definition is_count_request (req : Request) : bool :=
  match req with
  | RequestUserCount _ _ => true
  | _ => false
  end.

(** ** Sample runs *)

(** A creates the room "0AFF" and B joins it. *)
Definition room_of_two : Registry :=
  registry
    (handle "B" (JoinRoom "0AFF" Js.AckFunction)
       (registry
          (handle "A" (CreateRoom Js.AckFunction [(Byte.x0a, Byte.xff)]) initial))).

(** One connection creates two rooms in a row. *)
Definition two_rooms_run : list (string * Request) :=
  [ ("A", CreateRoom Js.AckFunction [(Byte.x0a, Byte.xff)]);
    ("A", CreateRoom Js.AckFunction [(Byte.x0b, Byte.xff)]) ].

(** ... then B joins the first room and A disconnects. *)
Definition leaving_run : list (string * Request) :=
  two_rooms_run ++
  [ ("B", JoinRoom "0AFF" Js.AckFunction); ("A", Disconnect) ].

(** ** Changes of the registry and what they preserve *)

(** The changes a handler that completes can make to the registry, seen
    from the socket [sid] that sent the request; the flag tells the
    changes that give [sid] a fresh [User]. *)
Inductive transition (st : Registry) (sid : string) : bool -> Registry -> Prop :=
| transition_none entering : transition st sid entering st
| transition_create id :
    rooms st !! id = None ->
    Js.inherited id Js.objectPrototype = None ->
    transition st sid true
      (mkRegistry (<[id := [sid]]> (rooms st))
         (<[sid := createUser id]> (users st)))
| transition_join id members sv lb :
    rooms st !! id = Some members ->
    transition st sid true
      (mkRegistry (<[id := set_add sid members]> (rooms st))
         (<[sid := mkUser id sv lb ∅]> (users st)))
| transition_leave u members :
    users st !! sid = Some u ->
    rooms st !! roomId u = Some members ->
    transition st sid false
      (mkRegistry
         (if decide (set_delete sid members = [])
          then delete (roomId u) (rooms st)
          else <[roomId u := set_delete sid members]> (rooms st))
         (delete sid (users st)))
| transition_forget u :
    users st !! sid = Some u ->
    rooms st !! roomId u = None ->
    transition st sid false (mkRegistry (rooms st) (delete sid (users st)))
| transition_update u u' :
    users st !! sid = Some u ->
    roomId u' = roomId u ->
    transition st sid false (mkRegistry (rooms st) (<[sid := u']> (users st))).

Definition enters (req : Request) : bool :=
  match req with
  | CreateRoom _ _ | JoinRoom _ _ => true
  | _ => false
  end.

(** What every reachable registry satisfies. *)
Record wf (st : Registry) : Prop := mkWf {
  wf_user_room : forall sid u, users st !! sid = Some u ->
    exists members, rooms st !! roomId u = Some members /\ sid ∈ members;
  wf_nonempty : forall id members, rooms st !! id = Some members -> members <> [];
  wf_nodup : forall id members, rooms st !! id = Some members -> NoDup members;
  wf_room_ids : forall id members, rooms st !! id = Some members ->
    Js.inherited id Js.objectPrototype = None
}.

(** Every socket id in a room has a [User], and that [User] names the
    room. *)
Definition members_known (st : Registry) : Prop :=
  forall id members sid, rooms st !! id = Some members -> sid ∈ members ->
    exists u, users st !! sid = Some u /\ roomId u = id.

(** A socket id is in at most one room, and the room its [User] names is
    the one. *)
Definition one_room_per_member (st : Registry) : Prop :=
  (forall sid id1 id2 members1 members2,
      rooms st !! id1 = Some members1 -> rooms st !! id2 = Some members2 ->
      sid ∈ members1 -> sid ∈ members2 -> id1 = id2) /\
  (forall sid u, users st !! sid = Some u ->
      (exists members, rooms st !! roomId u = Some members /\ sid ∈ members) /\
      (forall id members, rooms st !! id = Some members -> sid ∈ members ->
         id = roomId u)).

(** Every socket id in a room has a [User]. *)
Definition members_have_records (st : Registry) : Prop :=
  forall id members sid, rooms st !! id = Some members -> sid ∈ members ->
    is_Some (users st !! sid).

(** ** Room ids read back *)

(** The characters [getIdString] can produce. *)
Definition isUpperHex (c : ascii) : bool :=
  let n := N_of_ascii c in
  (((48 <=? n) && (n <=? 57)) || ((65 <=? n) && (n <=? 70)))%N.

(** The value of an upper-case hex digit, and the two bytes a room id
    stands for: the inverse of [getIdString], used to tell ids apart. *)
Definition hexValue (c : ascii) : option N :=
  let n := N_of_ascii c in
  if ((48 <=? n) && (n <=? 57))%N then Some (n - 48)%N
  else if ((65 <=? n) && (n <=? 70))%N then Some (n - 55)%N
  else None.

Definition hexByte (hi lo : ascii) : option Byte.byte :=
  match hexValue hi, hexValue lo with
  | Some h, Some l => Byte.of_N (16 * h + l)
  | _, _ => None
  end.

Definition parseIdString (id : string) : option (Byte.byte * Byte.byte) :=
  match id with
  | String a (String b (String c (String d EmptyString))) =>
      match hexByte a b, hexByte c d with
      | Some b0, Some b1 => Some (b0, b1)
      | _, _ => None
      end
  | _ => None
  end.

(** ** What belongs to a connection *)

(** [sid] is in the member set of the room [id]. *)
Definition in_room (st : Registry) (id sid : string) : Prop :=
  exists members, rooms st !! id = Some members /\ sid ∈ members.

(** ** Requests that can be answered *)

(** A request that gives the handler what it calls: an acknowledgement
    function where the handler calls one unguarded ([upvote] does so only
    for an unknown sender), and for a join a room id that is not the name
    of a member of [Object.prototype]. *)
Definition answerable (st : Registry) (sid : string) (req : Request) : Prop :=
  match req with
  | Disconnect | RequestUserCount _ _ => True
  | CreateRoom callback _ | SetUserServer _ callback
  | SetUserLibrary _ callback => callback = Js.AckFunction
  | JoinRoom id callback =>
      callback = Js.AckFunction /\ Js.inherited id Js.objectPrototype = None
  | Upvote _ callback =>
      callback = Js.AckFunction \/ is_Some (users st !! sid)
  end.

(** ** The count a room was last told *)

Fixpoint last_count (room : string) (evs : list Event) : option Z :=
  match evs with
  | [] => None
  | e :: rest =>
      match last_count room rest with
      | Some count => Some count
      | None =>
          match e with
          | Emit r (userCount count) =>
              if String.eqb r room then Some count else None
          | _ => None
          end
      end
  end.

(** ** Replies *)

(** The acknowledgements among the events, with the socket each went
    to. *)
Fixpoint acks (evs : list Event) : list (string * Reply) :=
  match evs with
  | [] => []
  | Ack socket reply :: rest => (socket, reply) :: acks rest
  | Emit _ _ :: rest => acks rest
  end.

(** ** The first revision of the module

    [src/sockets/index.js] is the module before [isObject], [upvote] and
    [socketMessages]; its helpers are the ones above (its [User] has no
    [upvoted] field, which stays empty here and is never read). Its
    [joinRoom] differs in one place: [getPlexInformationForRoom()] is
    called with no argument, so the key it reads is [undefined]. *)

Module Initial.

Definition joinRoom (sid id : string) (callback : Js.Callback) : M unit :=
  let! rs := getRooms in
  if truthy (rooms_get rs id) then
    rooms_add id sid ;;;
    let! us := getUsers in
    putUsers (<[sid := createUser id]> us) ;;;
    let! info := getPlexInformationForRoom "undefined" in
    match info with
    | Some (server, library) =>
        set_server sid server ;;;
        set_library sid library ;;;
        call callback sid (ReplyJoined server library) ;;;
        emitRoomUserCount id
    | None => throw Js.TypeError
    end
  else
    call callback sid
      (ReplyStatus false ("Unable to find room with the Id: " +:+ id)).

End Initial.

(** ** Tactics

    [run] unfolds the monad and the handlers down to the lookups they
    branch on; [no_count] clears a [userCount] looked for among
    acknowledgements. *)

Ltac run_monad :=
  cbv beta iota zeta delta
    [bind ret throw retrying getRooms getUsers putRooms putUsers emit call
     rooms_add rooms_delete set_server set_library upvoted_add
     emitRoomUserCount is_function truthy size_of negb or_minus_one
     array_from checkConsensus getPlexInformationForRoom has_upvoted
     disconnect createRoom joinRoom setUserServer setUserLibrary
     requestUserCount upvote handle].
Ltac run_data :=
  cbn [app length rooms users outcome registry events roomId server library
       upvoted].
Ltac run := run_monad; run_data; run_monad.

Ltac no_count H :=
  repeat first
    [ apply not_elem_of_nil in H; destruct H
    | apply elem_of_cons in H as [H|H]; [discriminate H|] ].

(** ** Reading [rooms] *)

Lemma rooms_get_own rs id members :
  rs !! id = Some members -> rooms_get rs id = OwnSet members.
Proof. intros H. unfold rooms_get. by rewrite H. Qed.

Lemma rooms_get_missing rs id :
  rs !! id = None -> Js.inherited id Js.objectPrototype = None ->
  rooms_get rs id = Missing.
Proof. intros H1 H2. unfold rooms_get. by rewrite H1, H2. Qed.

Lemma rooms_get_OwnSet rs id members :
  rooms_get rs id = OwnSet members <-> rs !! id = Some members.
Proof.
  split; [|apply rooms_get_own].
  unfold rooms_get. destruct (rs !! id) as [m|]; [congruence|].
  by destruct (Js.inherited id Js.objectPrototype).
Qed.

Lemma rooms_get_not_own rs id :
  rs !! id = None -> size_of (rooms_get rs id) = None.
Proof.
  intros H. unfold rooms_get. rewrite H.
  by destruct (Js.inherited id Js.objectPrototype).
Qed.

(** ** Generated room ids *)

Lemma getIdString_length b0 b1 :
  String.length (getIdString (b0, b1)) = 4%nat.
Proof. reflexivity. Qed.

Lemma inherited_length_4 key :
  String.length key = 4%nat -> Js.inherited key Js.objectPrototype = None.
Proof.
  intros Hlen. unfold Js.objectPrototype. cbn [Js.inherited].
  repeat match goal with
  | |- context [String.eqb key ?name] =>
      destruct (String.eqb_spec key name) as [->|_]; [discriminate Hlen|]
  end.
  reflexivity.
Qed.

Lemma getIdString_not_inherited draw :
  Js.inherited (getIdString draw) Js.objectPrototype = None.
Proof. destruct draw as [b0 b1]. by apply inherited_length_4. Qed.

Lemma generateRoomId_fresh draws rs id :
  generateRoomId draws rs = Some id ->
  rs !! id = None /\ Js.inherited id Js.objectPrototype = None.
Proof.
  induction draws as [|draw rest IH]; cbn [generateRoomId]; [done|].
  destruct (rs !! getIdString draw) eqn:Hown; [exact IH|].
  intros [= <-]. split; [done|apply getIdString_not_inherited].
Qed.

(** A draw that collides is skipped, and the first free one is taken. *)
Lemma generateRoomId_first_free draws draw rest rs :
  draws = draw :: rest -> rs !! getIdString draw = None ->
  generateRoomId draws rs = Some (getIdString draw).
Proof. intros -> H. cbn [generateRoomId]. by rewrite H. Qed.

(** ** Sets in insertion order *)

Lemma elem_of_set_add x y members :
  y ∈ set_add x members <-> y = x \/ y ∈ members.
Proof.
  unfold set_add. case_bool_decide as Hin.
  - split; [auto|]. intros [->|]; done.
  - rewrite elem_of_app, list_elem_of_singleton. tauto.
Qed.

Lemma set_add_nonempty x members : set_add x members <> [].
Proof.
  unfold set_add. case_bool_decide as Hin.
  - intros ->. by apply not_elem_of_nil in Hin.
  - by destruct members.
Qed.

Lemma NoDup_set_add x members : NoDup members -> NoDup (set_add x members).
Proof.
  intros Hnd. unfold set_add. case_bool_decide as Hin; [done|].
  apply NoDup_app. split_and!; [done| |apply NoDup_singleton].
  intros y Hy ->%list_elem_of_singleton. done.
Qed.

Lemma elem_of_set_delete x y members :
  y ∈ set_delete x members <-> y ∈ members /\ y <> x.
Proof. unfold set_delete. rewrite list_elem_of_filter. tauto. Qed.

Lemma NoDup_set_delete x members : NoDup members -> NoDup (set_delete x members).
Proof. apply NoDup_filter. Qed.

Lemma head_set_add x first rest : head (set_add x (first :: rest)) = Some first.
Proof. unfold set_add. by case_bool_decide. Qed.

(** ** Running the handlers

    Each handler is a straight-line program once the lookups it branches
    on are known; the lemmas of this section run it to its [Run]. *)

Lemma disconnect_unknown st sid :
  users st !! sid = None -> disconnect sid st = mkRun (Normal tt) st [].
Proof. intros H. destruct st as [rs us]; cbn [rooms users] in *. run. rewrite H. reflexivity. Qed.

Lemma disconnect_own st sid u members :
  users st !! sid = Some u -> rooms st !! roomId u = Some members ->
  disconnect sid st =
    if decide (set_delete sid members = [])
    then mkRun (Normal tt)
           (mkRegistry (delete (roomId u) (rooms st)) (delete sid (users st))) []
    else mkRun (Normal tt)
           (mkRegistry (<[roomId u := set_delete sid members]> (rooms st))
              (delete sid (users st)))
           [Emit (roomId u)
              (userCount (Z.of_nat (length (set_delete sid members))))].
Proof.
  intros Hu Hr. destruct st as [rs us]; cbn [rooms users] in *.
  run. rewrite Hu. run.
  rewrite (rooms_get_own _ _ _ Hr). run.
  rewrite (rooms_get_own _ _ _ Hr). run.
  rewrite (rooms_get_own _ _ (set_delete sid members)) by apply lookup_insert_eq.
  run.
  destruct (set_delete sid members) as [|x l] eqn:E.
  - run. rewrite decide_True by done. by rewrite delete_insert_eq.
  - run. rewrite decide_False by done.
    rewrite (rooms_get_own _ _ (x :: l)) by apply lookup_insert_eq.
    run. reflexivity.
Qed.

Lemma disconnect_missing st sid u :
  users st !! sid = Some u -> rooms_get (rooms st) (roomId u) = Missing ->
  disconnect sid st =
    mkRun (Normal tt) (mkRegistry (rooms st) (delete sid (users st))) [].
Proof.
  intros Hu Hr. destruct st as [rs us]; cbn [rooms users] in *.
  run. rewrite Hu. run. rewrite Hr. run. reflexivity.
Qed.

Lemma disconnect_inherited st sid u len :
  users st !! sid = Some u -> rooms_get (rooms st) (roomId u) = Inherited len ->
  disconnect sid st = mkRun (Throw Js.TypeError) st [].
Proof.
  intros Hu Hr. destruct st as [rs us]; cbn [rooms users] in *.
  run. rewrite Hu. run. rewrite Hr. run. rewrite Hr. run. reflexivity.
Qed.

Lemma createRoom_run st sid callback draws id :
  generateRoomId draws (rooms st) = Some id ->
  createRoom sid callback draws st =
    let st' := mkRegistry (<[id := [sid]]> (rooms st))
                 (<[sid := createUser id]> (users st)) in
    match callback with
    | Js.AckFunction =>
        mkRun (Normal tt) st' [Ack sid (ReplyId id); Emit id (userCount 1)]
    | Js.NotAFunction => mkRun (Throw Js.TypeError) st' []
    end.
Proof.
  intros Hid. destruct st as [rs us]; cbn [rooms users] in *.
  run. rewrite Hid. run.
  rewrite (rooms_get_own _ _ []) by apply lookup_insert_eq. run.
  rewrite insert_insert_eq.
  destruct callback; run; [|reflexivity].
  rewrite (rooms_get_own _ _ (set_add sid [])) by apply lookup_insert_eq.
  reflexivity.
Qed.

Lemma createRoom_retrying st sid callback draws :
  generateRoomId draws (rooms st) = None ->
  createRoom sid callback draws st = mkRun Retrying st [].
Proof.
  intros Hid. destruct st as [rs us]; cbn [rooms users] in *.
  run. rewrite Hid. reflexivity.
Qed.

Lemma joinRoom_missing st sid id callback :
  rooms_get (rooms st) id = Missing ->
  joinRoom sid id callback st =
    match callback with
    | Js.AckFunction =>
        mkRun (Normal tt) st
          [Ack sid (ReplyStatus false ("Unable to find room with the Id: " +:+ id))]
    | Js.NotAFunction => mkRun (Throw Js.TypeError) st []
    end.
Proof.
  intros Hr. destruct st as [rs us]; cbn [rooms users] in *.
  run. rewrite Hr. by destruct callback.
Qed.

Lemma joinRoom_inherited st sid id callback len :
  rooms_get (rooms st) id = Inherited len ->
  joinRoom sid id callback st = mkRun (Throw Js.TypeError) st [].
Proof.
  intros Hr. destruct st as [rs us]; cbn [rooms users] in *.
  run. rewrite Hr. run. rewrite Hr. reflexivity.
Qed.

Lemma joinRoom_own st sid id callback members :
  rooms st !! id = Some members ->
  joinRoom sid id callback st =
    let members' := set_add sid members in
    let rs' := <[id := members']> (rooms st) in
    let us' := <[sid := createUser id]> (users st) in
    match us' !! default "undefined" (head members') with
    | None => mkRun (Throw Js.TypeError) (mkRegistry rs' us') []
    | Some roomOwner =>
        let joined := mkUser id (server roomOwner) (library roomOwner) ∅ in
        let st' := mkRegistry rs' (<[sid := joined]> (users st)) in
        match callback with
        | Js.AckFunction =>
            mkRun (Normal tt) st'
              [Ack sid (ReplyJoined (server roomOwner) (library roomOwner));
               Emit id (userCount (Z.of_nat (length members')))]
        | Js.NotAFunction => mkRun (Throw Js.TypeError) st' []
        end
    end.
Proof.
  intros Hr. destruct st as [rs us]; cbn [rooms users] in *.
  run. rewrite (rooms_get_own _ _ _ Hr). run.
  rewrite (rooms_get_own _ _ _ Hr). run.
  rewrite (rooms_get_own _ _ (set_add sid members)) by apply lookup_insert_eq.
  run.
  destruct (_ !! default "undefined" (head (set_add sid members)))
    as [roomOwner|]; [|reflexivity].
  run. rewrite lookup_insert_eq. run. rewrite lookup_insert_eq. run.
  rewrite !insert_insert_eq.
  destruct callback; run; [|reflexivity].
  rewrite (rooms_get_own _ _ (set_add sid members)) by apply lookup_insert_eq.
  run. pose proof (set_add_nonempty sid members) as Hne.
  destruct (set_add sid members); [done|reflexivity].
Qed.

Lemma setUserServer_run st sid v callback :
  setUserServer sid v callback st =
    match users st !! sid with
    | Some u =>
        if isObject v then
          let st' := mkRegistry (rooms st)
                       (<[sid := mkUser (roomId u) v (library u) (upvoted u)]> (users st)) in
          call callback sid (ReplyStatus true "Updated the server for the user.") st'
        else
          call callback sid
            (ReplyStatus false
               "Failed to update the Plex.tv server. An invalid server object was received.")
            st
    | None =>
        call callback sid
          (ReplyStatus false ("Unable to find user with the Id: " +:+ sid)) st
    end.
Proof.
  destruct st as [rs us]; cbn [rooms users] in *.
  run. destruct (us !! sid) as [u|] eqn:Hu; [|by destruct callback].
  destruct (isObject v); [|by destruct callback].
  run. rewrite Hu. by destruct callback.
Qed.

Lemma setUserLibrary_run st sid v callback :
  setUserLibrary sid v callback st =
    match users st !! sid with
    | Some u =>
        if isObject v then
          let st' := mkRegistry (rooms st)
                       (<[sid := mkUser (roomId u) (server u) v (upvoted u)]> (users st)) in
          call callback sid (ReplyStatus true "Updated the library for the user.") st'
        else
          call callback sid
            (ReplyStatus false
               "Failed to update the Plex.tv library. An invalid library object was received.")
            st
    | None =>
        call callback sid
          (ReplyStatus false ("Unable to find user with the Id: " +:+ sid)) st
    end.
Proof.
  destruct st as [rs us]; cbn [rooms users] in *.
  run. destruct (us !! sid) as [u|] eqn:Hu; [|by destruct callback].
  destruct (isObject v); [|by destruct callback].
  run. rewrite Hu. by destruct callback.
Qed.

Lemma requestUserCount_run st sid id callback :
  requestUserCount sid id callback st =
    match rooms_get (rooms st) id with
    | Missing => mkRun (Normal tt) st []
    | entry =>
        mkRun (Normal tt) st [Emit id (userCount (or_minus_one (size_of entry)))]
    end.
Proof.
  destruct st as [rs us]; cbn [rooms users] in *.
  run. destruct (rooms_get rs id) eqn:E; run; rewrite ?E; reflexivity.
Qed.

Lemma has_upvoted_run st mediaId socketId :
  has_upvoted mediaId socketId st =
    mkRun
      match users st !! socketId with
      | Some u => Normal (bool_decide (mediaId ∈ upvoted u))
      | None => Throw Js.TypeError
      end st [].
Proof.
  unfold has_upvoted, bind, getUsers. by destruct (users st !! socketId).
Qed.

Lemma every_has_upvoted st mediaId members :
  every (has_upvoted mediaId) members st =
    mkRun (every_upvoted (users st) mediaId members) st [].
Proof.
  induction members as [|socketId rest IH]; [reflexivity|].
  cbn [every every_upvoted]. unfold bind. rewrite has_upvoted_run.
  destruct (users st !! socketId) as [u|]; [|reflexivity].
  destruct (bool_decide (mediaId ∈ upvoted u)); [|reflexivity].
  by rewrite IH.
Qed.

Lemma every_upvoted_true us mediaId members :
  every_upvoted us mediaId members = Normal true <->
  forall socketId, socketId ∈ members ->
    exists u, us !! socketId = Some u /\ mediaId ∈ upvoted u.
Proof.
  induction members as [|s rest IH]; cbn [every_upvoted].
  - split; [|done]. intros _ x Hx. by apply not_elem_of_nil in Hx.
  - destruct (us !! s) as [u|] eqn:Hu.
    + case_bool_decide as Hin.
      * rewrite IH. split.
        -- intros H x [->|Hx]%elem_of_cons; eauto.
        -- intros H x Hx. apply H. by right.
      * split; [done|]. intros H.
        destruct (H s) as (u' & Hu' & Hin'); [by left|]. congruence.
    + split; [done|]. intros H.
      destruct (H s) as (u' & Hu' & _); [by left|]. congruence.
Qed.

Lemma every_upvoted_total us mediaId members :
  (forall socketId, socketId ∈ members -> is_Some (us !! socketId)) ->
  exists b, every_upvoted us mediaId members = Normal b.
Proof.
  induction members as [|s rest IH]; cbn [every_upvoted]; intros H; [eauto|].
  destruct (H s) as [u ->]; [by left|].
  case_bool_decide; [|eauto]. apply IH. intros x Hx. apply H. by right.
Qed.

Lemma every_upvoted_not_retrying us mediaId members :
  every_upvoted us mediaId members <> Retrying.
Proof.
  induction members as [|s rest IH]; cbn [every_upvoted]; [done|].
  destruct (us !! s); [|done]. by case_bool_decide.
Qed.

Lemma checkConsensus_own st roomId mediaId members :
  rooms st !! roomId = Some members ->
  checkConsensus roomId mediaId st =
    match every_upvoted (users st) mediaId members with
    | Normal true =>
        mkRun (Normal tt) st [Emit roomId (consensusReached mediaId)]
    | Normal false => mkRun (Normal tt) st []
    | Throw e => mkRun (Throw e) st []
    | Retrying => mkRun Retrying st []
    end.
Proof.
  intros Hr. unfold checkConsensus, bind, getRooms.
  rewrite (rooms_get_own _ _ _ Hr). cbn [truthy negb array_from].
  rewrite every_has_upvoted.
  destruct (every_upvoted (users st) mediaId members) as [[|]| |]; reflexivity.
Qed.

Lemma checkConsensus_missing st roomId mediaId :
  rooms_get (rooms st) roomId = Missing ->
  checkConsensus roomId mediaId st = mkRun (Normal tt) st [].
Proof.
  intros Hr. unfold checkConsensus, bind, getRooms. by rewrite Hr.
Qed.

Lemma upvote_unknown st sid id callback :
  users st !! sid = None ->
  upvote sid id callback st =
    call callback sid
      (ReplyStatus false ("Unable to find user with the Id: " +:+ sid)) st.
Proof.
  intros Hu. unfold upvote, bind, getUsers. rewrite Hu. by destruct callback.
Qed.

Lemma upvote_again st sid id callback u :
  users st !! sid = Some u -> id ∈ upvoted u ->
  upvote sid id callback st = mkRun (Normal tt) st [].
Proof.
  intros Hu Hin. unfold upvote, bind, getUsers. rewrite Hu.
  by rewrite bool_decide_eq_true_2.
Qed.

Lemma upvote_first st sid id callback u :
  users st !! sid = Some u -> id ∉ upvoted u ->
  upvote sid id callback st =
    let voted := mkUser (roomId u) (server u) (library u) ({[id]} ∪ upvoted u) in
    let st' := mkRegistry (rooms st) (<[sid := voted]> (users st)) in
    let acks := if is_function callback
                then [Ack sid (ReplyStatus true "Upvoted successfully.")]
                else [] in
    match checkConsensus (roomId u) id st' with
    | mkRun o st'' ev => mkRun o st'' (acks ++ ev)
    end.
Proof.
  intros Hu Hin. destruct st as [rs us]; cbn [rooms users] in *.
  unfold upvote.
  cbv beta iota zeta delta [bind getUsers]; cbn [users].
  rewrite Hu. rewrite bool_decide_eq_false_2 by done.
  cbv beta iota zeta delta [bind getUsers putUsers upvoted_add negb];
    cbn [rooms users].
  rewrite Hu.
  destruct callback;
    cbv beta iota zeta delta [is_function call emit ret]; cbn [app];
    destruct (checkConsensus _ _ _) as [[[]| |] st'' ev]; reflexivity.
Qed.

(** [checkConsensus] only reads: whatever it finds, the registry is the
    one it started from. *)
Lemma checkConsensus_registry st roomId mediaId :
  registry (checkConsensus roomId mediaId st) = st.
Proof.
  unfold checkConsensus, bind, getRooms.
  destruct (negb (truthy (rooms_get (rooms st) roomId))); [reflexivity|].
  rewrite every_has_upvoted.
  by destruct (every_upvoted _ _ _) as [[|]| |].
Qed.

Lemma rooms_get_Missing rs id :
  rooms_get rs id = Missing -> rs !! id = None.
Proof. unfold rooms_get. by destruct (rs !! id). Qed.

(** ** The changes a completed handler makes *)

Lemma handle_transition st sid req :
  transition st sid (enters req) (registry (handle sid req st)).
Proof.
  destruct req as [|callback draws|id callback|v callback|v callback
                  |id callback|id callback]; cbn [handle enters].
  - destruct (users st !! sid) as [u|] eqn:Hu.
    + destruct (rooms_get (rooms st) (roomId u)) as [members|len|] eqn:Hr.
      * apply rooms_get_OwnSet in Hr. rewrite (disconnect_own _ _ _ _ Hu Hr).
        pose proof (transition_leave st sid u members Hu Hr) as Ht.
        by destruct (decide (set_delete sid members = [])).
      * rewrite (disconnect_inherited _ _ _ _ Hu Hr). constructor.
      * rewrite (disconnect_missing _ _ _ Hu Hr).
        apply (transition_forget st sid u Hu), rooms_get_Missing, Hr.
    + rewrite (disconnect_unknown _ _ Hu). constructor.
  - destruct (generateRoomId draws (rooms st)) as [id|] eqn:Hid.
    + rewrite (createRoom_run _ _ _ _ _ Hid). cbv zeta.
      apply generateRoomId_fresh in Hid as [Hfresh Hname].
      destruct callback; by apply transition_create.
    + rewrite (createRoom_retrying _ _ _ _ Hid). constructor.
  - destruct (rooms_get (rooms st) id) as [members|len|] eqn:Hr.
    + apply rooms_get_OwnSet in Hr. rewrite (joinRoom_own _ _ _ _ _ Hr).
      cbv zeta. destruct (_ !! default "undefined" _) as [roomOwner|];
        [destruct callback|]; by apply transition_join.
    + rewrite (joinRoom_inherited _ _ _ _ _ Hr). constructor.
    + rewrite (joinRoom_missing _ _ _ _ Hr). destruct callback; constructor.
  - rewrite setUserServer_run. destruct (users st !! sid) as [u|] eqn:Hu.
    + destruct (isObject v); destruct callback;
        first [by apply (transition_update st sid u)|constructor].
    + destruct callback; constructor.
  - rewrite setUserLibrary_run. destruct (users st !! sid) as [u|] eqn:Hu.
    + destruct (isObject v); destruct callback;
        first [by apply (transition_update st sid u)|constructor].
    + destruct callback; constructor.
  - rewrite requestUserCount_run.
    destruct (rooms_get (rooms st) id); constructor.
  - destruct (users st !! sid) as [u|] eqn:Hu.
    + destruct (decide (id ∈ upvoted u)) as [Hin|Hin].
      * rewrite (upvote_again _ _ _ _ _ Hu Hin). constructor.
      * rewrite (upvote_first _ _ _ _ _ Hu Hin). cbv zeta.
        match goal with
        | |- context [checkConsensus ?r ?m ?s] =>
            pose proof (checkConsensus_registry s r m) as Hreg;
            destruct (checkConsensus r m s) as [o st'' ev]
        end.
        cbn [registry] in *. subst st''. by apply (transition_update st sid u).
    + rewrite (upvote_unknown _ _ _ _ Hu). destruct callback; constructor.
Qed.

(** ** Invariants *)

Lemma wf_initial : wf initial.
Proof. split; cbn [initial rooms users]; intros *; by rewrite lookup_empty. Qed.

Lemma transition_wf st sid entering st' :
  transition st sid entering st' -> wf st -> wf st'.
Proof.
  intros Ht [Hroom Hne Hnd Hids].
  destruct Ht as [entering|id Hfresh Hname|id members sv lb Hr|u members Hu Hr
                 |u Hu Hr|u u' Hu Hsame].
  - by split.
  - split; cbn [rooms users].
    + intros s v Hv. destruct (decide (s = sid)) as [->|Hs].
      * rewrite lookup_insert_eq in Hv. injection Hv as <-. cbn [createUser roomId].
        exists [sid]. rewrite lookup_insert_eq. split; [done|by left].
      * rewrite lookup_insert_ne in Hv by done.
        destruct (Hroom s v Hv) as (ms & Hms & Hin). exists ms.
        rewrite lookup_insert_ne; [done|]. intros ->. congruence.
    + intros r ms. destruct (decide (r = id)) as [->|Hrid].
      * rewrite lookup_insert_eq. by intros [= <-].
      * rewrite lookup_insert_ne by done. apply Hne.
    + intros r ms. destruct (decide (r = id)) as [->|Hrid].
      * rewrite lookup_insert_eq. intros [= <-]. apply NoDup_singleton.
      * rewrite lookup_insert_ne by done. apply Hnd.
    + intros r ms. destruct (decide (r = id)) as [->|Hrid]; [done|].
      rewrite lookup_insert_ne by done. apply Hids.
  - split; cbn [rooms users].
    + intros s v Hv. destruct (decide (s = sid)) as [->|Hs].
      * rewrite lookup_insert_eq in Hv. injection Hv as <-. cbn [roomId].
        exists (set_add sid members). rewrite lookup_insert_eq.
        split; [done|]. apply elem_of_set_add. by left.
      * rewrite lookup_insert_ne in Hv by done.
        destruct (Hroom s v Hv) as (ms & Hms & Hin).
        destruct (decide (roomId v = id)) as [Hv_id|Hv_id].
        -- exists (set_add sid members). rewrite Hv_id, lookup_insert_eq.
           split; [done|]. apply elem_of_set_add. right. congruence.
        -- exists ms. by rewrite lookup_insert_ne.
    + intros r ms. destruct (decide (r = id)) as [->|Hrid].
      * rewrite lookup_insert_eq. intros [= <-]. apply set_add_nonempty.
      * rewrite lookup_insert_ne by done. apply Hne.
    + intros r ms. destruct (decide (r = id)) as [->|Hrid].
      * rewrite lookup_insert_eq. intros [= <-]. apply NoDup_set_add. eauto.
      * rewrite lookup_insert_ne by done. apply Hnd.
    + intros r ms. destruct (decide (r = id)) as [->|Hrid]; [eauto|].
      rewrite lookup_insert_ne by done. apply Hids.
  - assert (Hother : forall r,
      r <> roomId u ->
      (if decide (set_delete sid members = [])
       then delete (roomId u) (rooms st)
       else <[roomId u := set_delete sid members]> (rooms st)) !! r
      = rooms st !! r).
    { intros r Hrne. destruct (decide (set_delete sid members = [])).
      - by rewrite lookup_delete_ne.
      - by rewrite lookup_insert_ne. }
    split; cbn [rooms users].
    + intros s v Hv. apply lookup_delete_Some in Hv as [Hs Hv].
      destruct (Hroom s v Hv) as (ms & Hms & Hin).
      destruct (decide (roomId v = roomId u)) as [Hv_id|Hv_id].
      * rewrite Hv_id in *. assert (ms = members) as -> by congruence.
        assert (s ∈ set_delete sid members) as Hin'.
        { apply elem_of_set_delete. split; [done|congruence]. }
        exists (set_delete sid members). split; [|done].
        destruct (decide (set_delete sid members = [])) as [Hnil|_].
        -- rewrite Hnil in Hin'. by apply not_elem_of_nil in Hin'.
        -- apply lookup_insert_eq.
      * exists ms. by rewrite Hother.
    + intros r ms. destruct (decide (r = roomId u)) as [->|Hrne].
      * destruct (decide (set_delete sid members = [])) as [Hnil|Hcons].
        -- by rewrite lookup_delete_eq.
        -- rewrite lookup_insert_eq. by intros [= <-].
      * rewrite Hother by done. apply Hne.
    + intros r ms. destruct (decide (r = roomId u)) as [->|Hrne].
      * destruct (decide (set_delete sid members = [])) as [Hnil|Hcons].
        -- by rewrite lookup_delete_eq.
        -- rewrite lookup_insert_eq. intros [= <-].
           apply NoDup_set_delete. eauto.
      * rewrite Hother by done. apply Hnd.
    + intros r ms. destruct (decide (r = roomId u)) as [->|Hrne]; [eauto|].
      rewrite Hother by done. apply Hids.
  - split; cbn [rooms users]; [|done..].
    intros s v Hv. apply lookup_delete_Some in Hv as [Hs Hv]. eauto.
  - split; cbn [rooms users]; [|done..].
    intros s v Hv. destruct (decide (s = sid)) as [->|Hs].
    + rewrite lookup_insert_eq in Hv. injection Hv as <-. rewrite Hsame. eauto.
    + rewrite lookup_insert_ne in Hv by done. eauto.
Qed.

Lemma reachable_wf st : reachable st -> wf st.
Proof.
  induction 1 as [|st sid req _ IH]; [apply wf_initial|].
  eapply transition_wf; [apply handle_transition|done].
Qed.

Lemma newcomer_enters st sid req :
  newcomer st sid req -> enters req = true -> users st !! sid = None.
Proof. by destruct req. Qed.

Lemma transition_members_known st sid entering st' :
  transition st sid entering st' ->
  (entering = true -> users st !! sid = None) ->
  members_known st -> members_known st'.
Proof.
  intros Ht Hnew Hknown.
  destruct Ht as [entering|id Hfresh Hname|id members sv lb Hr|u members Hu Hr
                 |u Hu Hr|u u' Hu Hsame]; [done|..];
    intros r ms s; cbn [rooms users].
  - specialize (Hnew eq_refl). destruct (decide (r = id)) as [->|Hrid].
    + rewrite lookup_insert_eq. intros [= <-] ->%list_elem_of_singleton.
      exists (createUser id). by rewrite lookup_insert_eq.
    + rewrite lookup_insert_ne by done. intros Hms Hin.
      destruct (Hknown r ms s Hms Hin) as (v & Hv & Hv_id).
      exists v. rewrite lookup_insert_ne; [done|]. intros ->. congruence.
  - specialize (Hnew eq_refl).
    assert (Hold : forall r' ms', rooms st !! r' = Some ms' -> s ∈ ms' ->
              exists v, <[sid := mkUser id sv lb ∅]> (users st) !! s = Some v
                        /\ roomId v = r').
    { intros r' ms' Hms' Hin'.
      destruct (Hknown r' ms' s Hms' Hin') as (v & Hv & Hv_id).
      exists v. rewrite lookup_insert_ne; [done|]. intros ->. congruence. }
    destruct (decide (r = id)) as [->|Hrid].
    + rewrite lookup_insert_eq. intros [= <-] [->|Hin]%elem_of_set_add.
      * eexists. by rewrite lookup_insert_eq.
      * eauto.
    + rewrite lookup_insert_ne by done. eauto.
  - assert (Hold : forall r' ms', rooms st !! r' = Some ms' -> s ∈ ms' ->
              r' <> roomId u \/ s <> sid ->
              exists v, delete sid (users st) !! s = Some v /\ roomId v = r').
    { intros r' ms' Hms' Hin' Hdiff.
      destruct (Hknown r' ms' s Hms' Hin') as (v & Hv & Hv_id).
      exists v. split; [|done]. apply lookup_delete_Some. split; [|done].
      intros ->. destruct Hdiff as [Hd|Hd]; [|done]. congruence. }
    destruct (decide (r = roomId u)) as [->|Hrne].
    + destruct (decide (set_delete sid members = [])) as [Hnil|Hcons].
      * by rewrite lookup_delete_eq.
      * rewrite lookup_insert_eq. intros [= <-] [Hin Hs]%elem_of_set_delete.
        eauto.
    + destruct (decide (set_delete sid members = [])) as [Hnil|Hcons].
      * rewrite lookup_delete_ne by done. eauto.
      * rewrite lookup_insert_ne by done. eauto.
  - intros Hms Hin. destruct (Hknown r ms s Hms Hin) as (v & Hv & Hv_id).
    exists v. split; [|done]. apply lookup_delete_Some. split; [|done].
    intros ->. congruence.
  - intros Hms Hin. destruct (Hknown r ms s Hms Hin) as (v & Hv & Hv_id).
    destruct (decide (s = sid)) as [->|Hs].
    + exists u'. rewrite lookup_insert_eq. split; [done|]. congruence.
    + exists v. by rewrite lookup_insert_ne.
Qed.

Lemma newcomers_reachable st : reachable_by_newcomers st -> reachable st.
Proof.
  induction 1 as [|st sid req _ IH _]; [constructor|].
  by apply reachable_handle.
Qed.

Lemma newcomers_members_known st : reachable_by_newcomers st -> members_known st.
Proof.
  induction 1 as [|st sid req _ IH Hnew].
  - intros id members sid. cbn [initial rooms]. by rewrite lookup_empty.
  - eapply transition_members_known; [apply handle_transition| |done].
    by apply newcomer_enters.
Qed.

(** Requests run in sequence stay within the reachable registries. *)
Lemma run_all_reachable reqs st :
  reachable st -> reachable (registry (run_all reqs st)).
Proof.
  revert st. induction reqs as [|[sid req] rest IH]; intros st Hst; [done|].
  cbn [run_all]. unfold bind.
  pose proof (reachable_handle st sid req Hst) as Hstep.
  destruct (handle sid req st) as [[[]| |] st1 ev1]; cbn [registry] in *;
    [|done..].
  specialize (IH st1 Hstep).
  by destruct (run_all rest st1) as [o st2 ev2].
Qed.

(** ** The sample room *)

Lemma room_of_two_newcomers : reachable_by_newcomers room_of_two.
Proof.
  unfold room_of_two.
  apply newcomers_handle; [apply newcomers_handle; [constructor|]|];
    vm_compute; reflexivity.
Qed.

Lemma room_of_two_rooms :
  rooms room_of_two = {["0AFF" := ["A"; "B"]]}.
Proof. vm_compute. reflexivity. Qed.

Lemma room_of_two_users sid :
  sid = "A" \/ sid = "B" -> users room_of_two !! sid = Some (createUser "0AFF").
Proof. intros [->| ->]; vm_compute; reflexivity. Qed.

(** All four requests of [leaving_run] complete; after them the room
    "0AFF" holds A and B, and only B has a [User]. *)
Lemma leaving_run_reachable : reachable (registry (run_all leaving_run initial)).
Proof. apply run_all_reachable. constructor. Qed.

Lemma leaving_run_completes : outcome (run_all leaving_run initial) = Normal tt.
Proof. vm_compute. reflexivity. Qed.

Lemma leaving_run_rooms :
  rooms (registry (run_all leaving_run initial)) = {["0AFF" := ["A"; "B"]]}.
Proof. vm_compute. reflexivity. Qed.

Lemma leaving_run_users :
  users (registry (run_all leaving_run initial)) = {["B" := createUser "0AFF"]}.
Proof. vm_compute. reflexivity. Qed.

(** ** Upvotes and the consensus check *)

(** C1. For a member with a record and an item not yet in its upvoted
    set, [upvote] adds the item to that set and then runs the consensus
    check: when the member's room exists, [consensusReached] for the item
    is emitted to the room exactly when every socket id of the room has a
    [User] whose upvoted set holds the item; when [rooms] has nothing
    under the room id, the check does nothing. *)
Theorem upvote_first_vote_checks_consensus st sid u id callback :
  users st !! sid = Some u -> id ∉ upvoted u ->
  let voted := mkUser (roomId u) (server u) (library u) ({[id]} ∪ upvoted u) in
  let st' := mkRegistry (rooms st) (<[sid := voted]> (users st)) in
  let acks := if is_function callback
              then [Ack sid (ReplyStatus true "Upvoted successfully.")]
              else [] in
  let r := upvote sid id callback st in
  registry r = st' /\
  (forall members, rooms st !! roomId u = Some members ->
     exists reached : bool,
       events r =
         (acks ++
          if reached then [Emit (roomId u) (consensusReached id)] else [])%list
       /\ (reached = true <->
           forall socketId, socketId ∈ members ->
             exists v, users st' !! socketId = Some v /\ id ∈ upvoted v)) /\
  (rooms_get (rooms st) (roomId u) = Missing -> r = mkRun (Normal tt) st' acks).
Proof.
  intros Hu Hin voted st' acks r. subst r.
  rewrite (upvote_first _ _ _ _ _ Hu Hin). cbv zeta. fold voted st' acks.
  split; [|split].
  - pose proof (checkConsensus_registry st' (roomId u) id) as Hreg.
    by destruct (checkConsensus (roomId u) id st').
  - intros members Hr.
    rewrite (checkConsensus_own st' (roomId u) id members Hr).
    pose proof (every_upvoted_true (users st') id members) as Htrue.
    pose proof (every_upvoted_not_retrying (users st') id members) as Hretry.
    destruct (every_upvoted (users st') id members) as [[|]|e|];
      [exists true|exists false..]; cbn [events]; (split; [done|]);
      [tauto|split; [done|]; intros H; apply Htrue in H; done..].
  - intros Hr. rewrite (checkConsensus_missing st' (roomId u) id Hr).
    by rewrite app_nil_r.
Qed.

Lemma upvote_first_vote_checks_consensus_witness :
  users room_of_two !! "A" = Some (createUser "0AFF") /\
  ("42" ∉ upvoted (createUser "0AFF")) /\
  events (upvote "A" "42" Js.AckFunction room_of_two)
  = [Ack "A" (ReplyStatus true "Upvoted successfully.")].
Proof.
  assert (Hu : users room_of_two !! "A" = Some (createUser "0AFF"))
    by (apply room_of_two_users; by left).
  assert (Hin : "42" ∉ upvoted (createUser "0AFF"))
    by apply not_elem_of_empty.
  split; [exact Hu|]. split; [exact Hin|].
  destruct (upvote_first_vote_checks_consensus room_of_two "A"
              (createUser "0AFF") "42" Js.AckFunction Hu Hin)
    as (_ & Hroom & _).
  destruct (Hroom ["A"; "B"]) as (reached & Hev & Hiff).
  { rewrite room_of_two_rooms. apply lookup_singleton_eq. }
  destruct reached; [exfalso|exact Hev].
  destruct (proj1 Hiff eq_refl "B") as (v & Hv & Hvoted);
    [by right; left|].
  cbn [users] in Hv. rewrite lookup_insert_ne in Hv by discriminate.
  rewrite room_of_two_users in Hv by (by right).
  injection Hv as <-. by apply not_elem_of_empty in Hvoted.
Defined.

(** C2. For a member with a record, upvoting an item that is already in
    its upvoted set changes nothing and makes nothing observable: no
    acknowledgement, no consensus check, no notification. So whatever a
    member's upvote did, the same upvote sent again is silent. *)
Theorem upvote_repeated_is_silent st sid u id callback callback' :
  users st !! sid = Some u ->
  (id ∈ upvoted u -> upvote sid id callback st = mkRun (Normal tt) st []) /\
  (let st1 := registry (upvote sid id callback st) in
   upvote sid id callback' st1 = mkRun (Normal tt) st1 []).
Proof.
  intros Hu. split; [apply upvote_again, Hu|]. cbv zeta.
  destruct (decide (id ∈ upvoted u)) as [Hin|Hin].
  - rewrite (upvote_again _ _ _ callback _ Hu Hin). cbn [registry].
    by apply (upvote_again _ _ _ _ u).
  - rewrite (upvote_first _ _ _ _ _ Hu Hin). cbv zeta.
    match goal with
    | |- context [checkConsensus ?room ?m ?s] =>
        pose proof (checkConsensus_registry s room m) as Hreg;
        destruct (checkConsensus room m s) as [o st'' ev]
    end.
    cbn [registry] in *. subst st''.
    eapply upvote_again; cbn [users]; [apply lookup_insert_eq|].
    cbn [upvoted]. set_solver.
Qed.

Lemma upvote_repeated_is_silent_witness :
  users room_of_two !! "A" = Some (createUser "0AFF") /\
  upvote "A" "42" Js.NotAFunction
    (registry (upvote "A" "42" Js.AckFunction room_of_two))
  = mkRun (Normal tt) (registry (upvote "A" "42" Js.AckFunction room_of_two)) [].
Proof.
  assert (Hu : users room_of_two !! "A" = Some (createUser "0AFF"))
    by (apply room_of_two_users; by left).
  split; [exact Hu|].
  exact (proj2 (upvote_repeated_is_silent room_of_two "A" (createUser "0AFF")
                  "42" Js.AckFunction Js.NotAFunction Hu)).
Defined.

(** The scenario of the specification: A creates a room, B joins it with
    the id A was given, both upvote "42"; consensus is announced after
    B's vote and not after A's. *)
Example scenario_two_voters :
  events
    (run_all
       [ ("A", CreateRoom Js.AckFunction [(Byte.x0a, Byte.xff)]);
         ("B", JoinRoom "0AFF" Js.AckFunction);
         ("A", Upvote "42" Js.AckFunction);
         ("B", Upvote "42" Js.AckFunction) ] initial)
  = [ Ack "A" (ReplyId "0AFF");
      Emit "0AFF" (userCount 1);
      Ack "B" (ReplyJoined (Js.Str "") (Js.Str ""));
      Emit "0AFF" (userCount 2);
      Ack "A" (ReplyStatus true "Upvoted successfully.");
      Ack "B" (ReplyStatus true "Upvoted successfully.");
      Emit "0AFF" (consensusReached "42") ].
Proof. vm_compute. reflexivity. Qed.

(** A third member who joins after the consensus blocks it until it
    votes; A voting again in between is silent. *)
Example scenario_late_joiner :
  events
    (run_all
       [ ("C", JoinRoom "0AFF" Js.AckFunction);
         ("A", Upvote "42" Js.AckFunction);
         ("C", Upvote "42" Js.AckFunction) ]
       (registry
          (run_all
             [ ("A", CreateRoom Js.AckFunction [(Byte.x0a, Byte.xff)]);
               ("B", JoinRoom "0AFF" Js.AckFunction);
               ("A", Upvote "42" Js.AckFunction);
               ("B", Upvote "42" Js.AckFunction) ] initial)))
  = [ Ack "C" (ReplyJoined (Js.Str "") (Js.Str ""));
      Emit "0AFF" (userCount 3);
      Ack "C" (ReplyStatus true "Upvoted successfully.");
      Emit "0AFF" (consensusReached "42") ].
Proof. vm_compute. reflexivity. Qed.

(** ** One room per member *)

(** C3, as stated, fails: both requests of [two_rooms_run] complete, and
    the connection that created a second room is still in the member set
    of its first one. *)
Lemma two_rooms_not_one_room :
  outcome (run_all two_rooms_run initial) = Normal tt /\
  reachable (registry (run_all two_rooms_run initial)) /\
  ~ one_room_per_member (registry (run_all two_rooms_run initial)).
Proof.
  split; [vm_compute; reflexivity|]. split.
  - apply run_all_reachable. constructor.
  - intros [Hone _].
    assert ("0AFF" = "0BFF") as Heq; [|discriminate Heq].
    apply (Hone "A" "0AFF" "0BFF" ["A"] ["A"]);
      [vm_compute; reflexivity..|by left|by left].
Qed.

(** C3, amended. In every registry reached by runs in which a connection
    asks to create or join a room only while it has no [User], no socket
    id is in the member sets of two rooms, and the room a [User] names is
    live, holds the socket id, and is the only room that does. *)
Theorem newcomers_one_room_per_member st :
  reachable_by_newcomers st -> one_room_per_member st.
Proof.
  intros Hst. pose proof (newcomers_members_known st Hst) as Hknown.
  pose proof (reachable_wf st (newcomers_reachable st Hst)) as Hwf.
  split.
  - intros sid id1 id2 members1 members2 H1 H2 Hin1 Hin2.
    destruct (Hknown id1 members1 sid H1 Hin1) as (u1 & Hu1 & <-).
    destruct (Hknown id2 members2 sid H2 Hin2) as (u2 & Hu2 & <-).
    congruence.
  - intros sid u Hu. split; [by apply (wf_user_room st Hwf)|].
    intros id members Hr Hin.
    destruct (Hknown id members sid Hr Hin) as (u' & Hu' & <-). congruence.
Qed.

Lemma newcomers_one_room_per_member_witness :
  reachable_by_newcomers room_of_two /\ one_room_per_member room_of_two.
Proof.
  split; [exact room_of_two_newcomers|].
  exact (newcomers_one_room_per_member room_of_two room_of_two_newcomers).
Defined.

(** ** Members and their records *)

(** C4, as stated, fails: after [leaving_run] the room "0AFF" still
    holds the socket id "A", whose [User] is gone; the consensus check of
    that room raises when it reads [users["A"].upvoted], and so does the
    upvote of B that runs it. *)
Lemma leaving_run_dangling_member :
  outcome (run_all leaving_run initial) = Normal tt /\
  reachable (registry (run_all leaving_run initial)) /\
  ~ members_have_records (registry (run_all leaving_run initial)) /\
  outcome (checkConsensus "0AFF" "42" (registry (run_all leaving_run initial)))
  = Throw Js.TypeError /\
  outcome (upvote "B" "42" Js.AckFunction (registry (run_all leaving_run initial)))
  = Throw Js.TypeError.
Proof.
  split; [exact leaving_run_completes|].
  split; [exact leaving_run_reachable|].
  split; [|split; vm_compute; reflexivity].
  intros Hrec.
  destruct (Hrec "0AFF" ["A"; "B"] "A") as [u Hu];
    [by rewrite leaving_run_rooms|by left|].
  rewrite leaving_run_users in Hu. discriminate Hu.
Qed.

(** C4, amended. In every registry reached by runs in which a connection
    asks to create or join a room only while it has no [User], every
    socket id in a room's member set has a [User]; the consensus check of
    a live room then completes without raising, and so does every upvote
    of a member. *)
Theorem newcomers_members_have_records st :
  reachable_by_newcomers st ->
  members_have_records st /\
  (forall room mediaId members, rooms st !! room = Some members ->
     outcome (checkConsensus room mediaId st) = Normal tt) /\
  (forall sid id callback, is_Some (users st !! sid) ->
     outcome (upvote sid id callback st) = Normal tt).
Proof.
  intros Hst. pose proof (newcomers_members_known st Hst) as Hknown.
  pose proof (reachable_wf st (newcomers_reachable st Hst)) as Hwf.
  assert (Hrec : members_have_records st).
  { intros room members sid Hr Hin.
    destruct (Hknown room members sid Hr Hin) as (u & Hu & _). eauto. }
  split; [exact Hrec|]. split.
  - intros room mediaId members Hr. rewrite (checkConsensus_own _ _ _ _ Hr).
    destruct (every_upvoted_total (users st) mediaId members) as [b ->].
    { intros s Hs. by apply (Hrec room members). }
    by destruct b.
  - intros sid id callback [u Hu].
    destruct (decide (id ∈ upvoted u)) as [Hin|Hin].
    { by rewrite (upvote_again _ _ _ _ _ Hu Hin). }
    rewrite (upvote_first _ _ _ _ _ Hu Hin). cbv zeta.
    destruct (wf_user_room st Hwf sid u Hu) as (members & Hr & _).
    match goal with
    | |- context [checkConsensus ?room ?m ?s] =>
        rewrite (checkConsensus_own s room m members Hr)
    end.
    cbn [users].
    match goal with
    | |- context [every_upvoted ?us id members] =>
        destruct (every_upvoted_total us id members) as [b ->]
    end.
    { intros s Hs. destruct (decide (s = sid)) as [->|Hne].
      - rewrite lookup_insert_eq. eauto.
      - rewrite lookup_insert_ne by done. by apply (Hrec (roomId u) members). }
    by destruct b.
Qed.

Lemma newcomers_members_have_records_witness :
  reachable_by_newcomers room_of_two /\
  members_have_records room_of_two /\
  outcome (upvote "A" "42" Js.NotAFunction room_of_two) = Normal tt.
Proof.
  pose proof (newcomers_members_have_records room_of_two room_of_two_newcomers)
    as (Hrec & _ & Hvote).
  split; [exact room_of_two_newcomers|]. split; [exact Hrec|].
  apply Hvote. vm_compute. eauto.
Defined.

(** ** Replies that are never sent *)

Lemma upvote_unknown_without_callback st sid id :
  users st !! sid = None ->
  upvote sid id Js.NotAFunction st = mkRun (Throw Js.TypeError) st [].
Proof. intros Hu. by rewrite (upvote_unknown _ _ _ _ Hu). Qed.

(** C5, at the failing input: an upvote from a connection that has no
    [User] and sent no acknowledgement function ends in a [TypeError],
    where the branch for a known member tests [typeof callback] first. *)
Theorem upvote_unknown_without_callback_throws :
  upvote "s1" "42" Js.NotAFunction initial
  = mkRun (Throw Js.TypeError) initial [].
Proof. by apply upvote_unknown_without_callback. Qed.

(** ** Joining *)

Lemma isObject_Object v :
  isObject v = true <-> exists fields, v = Js.Object fields.
Proof.
  split; [|by intros [fields ->]].
  destruct v; try discriminate. eauto.
Qed.

Lemma joinRoom_copies st sid id first rest roomOwner :
  rooms st !! id = Some (first :: rest) ->
  users st !! first = Some roomOwner ->
  first <> sid ->
  joinRoom sid id Js.AckFunction st =
    mkRun (Normal tt)
      (mkRegistry (<[id := set_add sid (first :: rest)]> (rooms st))
         (<[sid := mkUser id (server roomOwner) (library roomOwner) ∅]> (users st)))
      [Ack sid (ReplyJoined (server roomOwner) (library roomOwner));
       Emit id (userCount (Z.of_nat (length (set_add sid (first :: rest)))))].
Proof.
  intros Hr Hown Hne. rewrite (joinRoom_own _ _ _ _ _ Hr). cbv zeta.
  rewrite head_set_add. cbn [from_option]. unfold Datatypes.id.
  rewrite lookup_insert_ne by done. by rewrite Hown.
Qed.

(** C6, as stated, fails: after [leaving_run] the room "0AFF" is live
    and B is a member of it with a [User], yet a join by C raises, because
    the member read is A, the first the [Set] iterates, whose [User] is
    gone; C is left in the room with the empty descriptors and gets no
    reply. *)
Lemma join_after_leaving_run_throws :
  outcome (run_all leaving_run initial) = Normal tt /\
  reachable (registry (run_all leaving_run initial)) /\
  rooms (registry (run_all leaving_run initial)) !! "0AFF" = Some ["A"; "B"] /\
  users (registry (run_all leaving_run initial)) !! "B"
  = Some (createUser "0AFF") /\
  users (registry (run_all leaving_run initial)) !! "C" = None /\
  joinRoom "C" "0AFF" Js.AckFunction (registry (run_all leaving_run initial))
  = mkRun (Throw Js.TypeError)
      (mkRegistry {["0AFF" := ["A"; "B"; "C"]]}
         (<["C" := createUser "0AFF"]> {["B" := createUser "0AFF"]}))
      [].
Proof.
  split; [exact leaving_run_completes|].
  split; [exact leaving_run_reachable|].
  rewrite leaving_run_rooms, leaving_run_users.
  split_and!; [done|done|done|].
  vm_compute. reflexivity.
Qed.

(** The hypotheses of the theorem below hold for every live room and
    every newcomer, in the runs where only newcomers create or join. *)
Lemma newcomers_room_owner st sid id members :
  reachable_by_newcomers st ->
  rooms st !! id = Some members -> users st !! sid = None ->
  exists first rest roomOwner,
    members = first :: rest /\ users st !! first = Some roomOwner /\
    first <> sid.
Proof.
  intros Hst Hr Hnew.
  pose proof (reachable_wf st (newcomers_reachable st Hst)) as Hwf.
  pose proof (wf_nonempty st Hwf id members Hr) as Hne.
  destruct members as [|first rest]; [done|].
  destruct (newcomers_members_known st Hst id (first :: rest) first Hr)
    as (roomOwner & Hown & _); [by left|].
  exists first, rest, roomOwner. split_and!; [done|done|]. intros ->. congruence.
Qed.

(** C6, amended. Joining a live room whose earliest member [first] (the
    first socket id its [Set] iterates) has a [User] succeeds for any
    other connection: the reply carries the server and library of [first]
    as they are now, the joiner's [User] stores them, and [first] keeps
    its own. Round trip: once [first] has set a server and a library, the
    reply to the next joiner carries exactly those two values. *)
Theorem joinRoom_copies_descriptors st sid id first rest roomOwner sv lb :
  rooms st !! id = Some (first :: rest) ->
  users st !! first = Some roomOwner ->
  first <> sid ->
  isObject sv = true -> isObject lb = true ->
  let count := Z.of_nat (length (set_add sid (first :: rest))) in
  (let r := joinRoom sid id Js.AckFunction st in
   outcome r = Normal tt /\
   events r = [Ack sid (ReplyJoined (server roomOwner) (library roomOwner));
               Emit id (userCount count)] /\
   users (registry r) !! sid
   = Some (mkUser id (server roomOwner) (library roomOwner) ∅) /\
   users (registry r) !! first = Some roomOwner /\
   rooms (registry r) !! id = Some (set_add sid (first :: rest))) /\
  (let r := run_all [ (first, SetUserServer sv Js.AckFunction);
                      (first, SetUserLibrary lb Js.AckFunction);
                      (sid, JoinRoom id Js.AckFunction) ] st in
   outcome r = Normal tt /\
   events r = [Ack first (ReplyStatus true "Updated the server for the user.");
               Ack first (ReplyStatus true "Updated the library for the user.");
               Ack sid (ReplyJoined sv lb);
               Emit id (userCount count)] /\
   users (registry r) !! sid = Some (mkUser id sv lb ∅) /\
   users (registry r) !! first
   = Some (mkUser (roomId roomOwner) sv lb (upvoted roomOwner))).
Proof.
  intros Hr Hown Hne Hsv Hlb count. split; cbv zeta.
  - rewrite (joinRoom_copies _ _ _ _ _ _ Hr Hown Hne).
    cbn [outcome events registry rooms users].
    split_and!; [done|done|apply lookup_insert_eq| |apply lookup_insert_eq].
    by rewrite lookup_insert_ne.
  - assert (Hrun :
      run_all [ (first, SetUserServer sv Js.AckFunction);
                (first, SetUserLibrary lb Js.AckFunction);
                (sid, JoinRoom id Js.AckFunction) ] st
      = mkRun (Normal tt)
          (mkRegistry (<[id := set_add sid (first :: rest)]> (rooms st))
             (<[sid := mkUser id sv lb ∅]>
                (<[first := mkUser (roomId roomOwner) sv lb (upvoted roomOwner)]>
                   (users st))))
          [Ack first (ReplyStatus true "Updated the server for the user.");
           Ack first (ReplyStatus true "Updated the library for the user.");
           Ack sid (ReplyJoined sv lb);
           Emit id (userCount count)]).
    { cbn [run_all handle]. unfold bind.
      rewrite setUserServer_run, Hown, Hsv. cbv zeta. cbn [call emit].
      rewrite setUserLibrary_run. cbn [rooms users].
      rewrite lookup_insert_eq, Hlb. cbv zeta.
      cbn [call emit rooms users roomId server library upvoted].
      rewrite insert_insert_eq.
      erewrite joinRoom_copies;
        [|exact Hr|cbn [users]; apply lookup_insert_eq|exact Hne].
      reflexivity. }
    rewrite Hrun. cbn [outcome events registry rooms users].
    split_and!; [done|done|apply lookup_insert_eq|].
    rewrite lookup_insert_ne by done. apply lookup_insert_eq.
Qed.

Lemma joinRoom_copies_descriptors_witness :
  rooms room_of_two !! "0AFF" = Some ["A"; "B"] /\
  users room_of_two !! "A" = Some (createUser "0AFF") /\
  events
    (run_all
       [ ("A", SetUserServer (Js.Object [("server", Js.Str "https://plex.tv")])
                 Js.AckFunction);
         ("A", SetUserLibrary (Js.Object [("key", Js.Number 2)]) Js.AckFunction);
         ("C", JoinRoom "0AFF" Js.AckFunction) ] room_of_two)
  = [ Ack "A" (ReplyStatus true "Updated the server for the user.");
      Ack "A" (ReplyStatus true "Updated the library for the user.");
      Ack "C"
        (ReplyJoined (Js.Object [("server", Js.Str "https://plex.tv")])
           (Js.Object [("key", Js.Number 2)]));
      Emit "0AFF" (userCount 3) ].
Proof.
  assert (Hr : rooms room_of_two !! "0AFF" = Some ["A"; "B"])
    by (vm_compute; reflexivity).
  assert (Hown : users room_of_two !! "A" = Some (createUser "0AFF"))
    by (vm_compute; reflexivity).
  split; [exact Hr|]. split; [exact Hown|].
  destruct (joinRoom_copies_descriptors room_of_two "C" "0AFF" "A" ["B"]
              (createUser "0AFF")
              (Js.Object [("server", Js.Str "https://plex.tv")])
              (Js.Object [("key", Js.Number 2)]) Hr Hown)
    as [_ (_ & Hev & _)]; [discriminate|reflexivity|reflexivity|].
  exact Hev.
Defined.

(** C8, at the failing input: "constructor" names no room, yet
    [rooms["constructor"]] is the inherited [Object] function, which is
    truthy and has no [add]; the join raises and no reply is sent.
    [generateRoomId] asks [hasOwnProperty] instead. *)
Theorem joinRoom_inherited_name_throws :
  rooms initial !! "constructor" = None /\
  joinRoom "s1" "constructor" Js.AckFunction initial
  = mkRun (Throw Js.TypeError) initial [].
Proof.
  split; [apply lookup_empty|].
  by apply (joinRoom_inherited _ _ _ _ 1%nat).
Qed.

(** For an id that is neither a live room nor a member of
    [Object.prototype], the join is refused and nothing changes. *)
Lemma joinRoom_unknown_room st sid id :
  rooms st !! id = None -> Js.inherited id Js.objectPrototype = None ->
  joinRoom sid id Js.AckFunction st =
    mkRun (Normal tt) st
      [Ack sid (ReplyStatus false ("Unable to find room with the Id: " +:+ id))].
Proof.
  intros Hr Hname. by rewrite (joinRoom_missing _ _ _ _ (rooms_get_missing _ _ Hr Hname)).
Qed.

(** ** Server and library descriptors *)

(** C7. [isObject] accepts exactly the plain objects; for a member with a
    record, [setUserServer] and [setUserLibrary] answer [success: false]
    to anything else and leave the registry as it is, and on a plain
    object overwrite the descriptor they target and answer
    [success: true]; for a socket id without a record they answer
    [success: false] with the not-found message, whatever the value. *)
Theorem set_descriptor_requires_plain_object st sid v :
  (isObject v = true <-> exists fields, v = Js.Object fields) /\
  (isObject (Js.Bool false) = false /\ isObject (Js.Number 1234) = false /\
   isObject (Js.Array [Js.Str "Bad"; Js.Str "String"]) = false /\
   isObject (Js.Str "Bad string") = false /\ isObject Js.Null = false /\
   isObject (Js.Object []) = true) /\
  (forall u, users st !! sid = Some u -> isObject v = false ->
     (exists message,
        setUserServer sid v Js.AckFunction st
        = mkRun (Normal tt) st [Ack sid (ReplyStatus false message)]) /\
     (exists message,
        setUserLibrary sid v Js.AckFunction st
        = mkRun (Normal tt) st [Ack sid (ReplyStatus false message)])) /\
  (forall u, users st !! sid = Some u -> isObject v = true ->
     setUserServer sid v Js.AckFunction st
     = mkRun (Normal tt)
         (mkRegistry (rooms st)
            (<[sid := mkUser (roomId u) v (library u) (upvoted u)]> (users st)))
         [Ack sid (ReplyStatus true "Updated the server for the user.")] /\
     setUserLibrary sid v Js.AckFunction st
     = mkRun (Normal tt)
         (mkRegistry (rooms st)
            (<[sid := mkUser (roomId u) (server u) v (upvoted u)]> (users st)))
         [Ack sid (ReplyStatus true "Updated the library for the user.")]) /\
  (users st !! sid = None ->
     setUserServer sid v Js.AckFunction st
     = mkRun (Normal tt) st
         [Ack sid (ReplyStatus false ("Unable to find user with the Id: " +:+ sid))] /\
     setUserLibrary sid v Js.AckFunction st
     = mkRun (Normal tt) st
         [Ack sid (ReplyStatus false ("Unable to find user with the Id: " +:+ sid))]).
Proof.
  split; [apply isObject_Object|]. split; [by repeat split|].
  rewrite setUserServer_run, setUserLibrary_run. split_and!.
  - intros u -> ->. split; eexists; reflexivity.
  - intros u -> ->. by split.
  - intros ->. by split.
Qed.

Lemma set_descriptor_requires_plain_object_witness :
  users room_of_two !! "A" = Some (createUser "0AFF") /\
  isObject (Js.Str "Bad string") = false /\
  exists message,
    setUserServer "A" (Js.Str "Bad string") Js.AckFunction room_of_two
    = mkRun (Normal tt) room_of_two [Ack "A" (ReplyStatus false message)].
Proof.
  assert (Hu : users room_of_two !! "A" = Some (createUser "0AFF"))
    by (vm_compute; reflexivity).
  split; [exact Hu|]. split; [reflexivity|].
  destruct (set_descriptor_requires_plain_object room_of_two "A"
              (Js.Str "Bad string")) as (_ & _ & Hreject & _).
  exact (proj1 (Hreject (createUser "0AFF") Hu eq_refl)).
Defined.

(** ** Leaving *)

(** C9. In a reachable registry, [disconnect] of a socket id without a
    record does nothing; for a member, the room its record names is live,
    the socket id is taken out of the member set and the record is
    deleted, nothing else changes; if the set is thereby empty the room
    is deleted and a join under its old id is refused as not found,
    otherwise the room is told its new member count. *)
Theorem disconnect_leaves_room st sid :
  reachable st ->
  (users st !! sid = None -> disconnect sid st = mkRun (Normal tt) st []) /\
  (forall u, users st !! sid = Some u ->
     exists members,
       rooms st !! roomId u = Some members /\ sid ∈ members /\
       let remaining := set_delete sid members in
       let r := disconnect sid st in
       outcome r = Normal tt /\
       (forall s, s ∈ remaining <-> s ∈ members /\ s <> sid) /\
       users (registry r) = delete sid (users st) /\
       (forall id, id <> roomId u -> rooms (registry r) !! id = rooms st !! id) /\
       (remaining = [] ->
          rooms (registry r) !! roomId u = None /\ events r = [] /\
          forall joiner,
            joinRoom joiner (roomId u) Js.AckFunction (registry r)
            = mkRun (Normal tt) (registry r)
                [Ack joiner
                   (ReplyStatus false
                      ("Unable to find room with the Id: " +:+ roomId u))]) /\
       (remaining <> [] ->
          rooms (registry r) !! roomId u = Some remaining /\
          events r
          = [Emit (roomId u) (userCount (Z.of_nat (length remaining)))])).
Proof.
  intros Hst. pose proof (reachable_wf st Hst) as Hwf.
  split; [apply disconnect_unknown|]. intros u Hu.
  destruct (wf_user_room st Hwf sid u Hu) as (members & Hr & Hin).
  exists members. split; [done|]. split; [done|]. cbv zeta.
  rewrite (disconnect_own _ _ _ _ Hu Hr).
  destruct (decide (set_delete sid members = [])) as [Hnil|Hcons];
    cbn [outcome registry events rooms users].
  - split_and!; [done|intros s; apply elem_of_set_delete|done| | |done].
    + intros id Hid. by rewrite lookup_delete_ne.
    + intros _. split; [apply lookup_delete_eq|]. split; [done|].
      intros joiner. apply joinRoom_unknown_room; cbn [rooms].
      * apply lookup_delete_eq.
      * by apply (wf_room_ids st Hwf _ members).
  - split_and!; [done|intros s; apply elem_of_set_delete|done| |done|].
    + intros id Hid. by rewrite lookup_insert_ne.
    + intros _. split; [apply lookup_insert_eq|done].
Qed.

Lemma disconnect_leaves_room_witness :
  reachable room_of_two /\
  users room_of_two !! "B" = Some (createUser "0AFF") /\
  events (disconnect "B" room_of_two) = [Emit "0AFF" (userCount 1)].
Proof.
  assert (Hst : reachable room_of_two)
    by exact (newcomers_reachable _ room_of_two_newcomers).
  assert (Hu : users room_of_two !! "B" = Some (createUser "0AFF"))
    by (vm_compute; reflexivity).
  split; [exact Hst|]. split; [exact Hu|].
  destruct (proj2 (disconnect_leaves_room room_of_two "B" Hst)
              (createUser "0AFF") Hu)
    as (members & Hr & _ & _ & _ & _ & _ & _ & Hremaining).
  assert (members = ["A"; "B"]) as ->
    by (vm_compute in Hr; congruence).
  apply Hremaining. discriminate.
Defined.

(** ** Member counts *)

Lemma checkConsensus_events st roomId mediaId e :
  e ∈ events (checkConsensus roomId mediaId st) ->
  e = Emit roomId (consensusReached mediaId).
Proof.
  unfold checkConsensus, bind, getRooms.
  destruct (negb (truthy (rooms_get (rooms st) roomId))).
  { by intros ?%not_elem_of_nil. }
  rewrite every_has_upvoted.
  destruct (every_upvoted _ _ _) as [[|]| |]; cbn [events ret emit app].
  - by intros ->%list_elem_of_singleton.
  - by intros ?%not_elem_of_nil.
  - by intros ?%not_elem_of_nil.
  - by intros ?%not_elem_of_nil.
Qed.

(** A count sent by any handler but [requestUserCount] is the size of
    the room as the handler leaves it, and that room is not empty. *)
Lemma handle_count_is_size st sid req room count :
  is_count_request req = false ->
  Emit room (userCount count) ∈ events (handle sid req st) ->
  exists members,
    rooms (registry (handle sid req st)) !! room = Some members /\
    members <> [] /\ count = Z.of_nat (length members).
Proof.
  intros Hreq.
  destruct req as [|callback draws|id callback|v callback|v callback
                  |id callback|id callback]; cbn [handle]; [..|done|].
  - destruct (users st !! sid) as [u|] eqn:Hu.
    + destruct (rooms_get (rooms st) (roomId u)) as [members|len|] eqn:Hr.
      * apply rooms_get_OwnSet in Hr. rewrite (disconnect_own _ _ _ _ Hu Hr).
        destruct (decide (set_delete sid members = [])) as [Hnil|Hcons];
          cbn [events registry rooms]; intros H.
        -- by apply not_elem_of_nil in H.
        -- apply list_elem_of_singleton in H. injection H as -> ->.
           exists (set_delete sid members). by rewrite lookup_insert_eq.
      * rewrite (disconnect_inherited _ _ _ _ Hu Hr). by intros ?%not_elem_of_nil.
      * rewrite (disconnect_missing _ _ _ Hu Hr). by intros ?%not_elem_of_nil.
    + rewrite (disconnect_unknown _ _ Hu). by intros ?%not_elem_of_nil.
  - destruct (generateRoomId draws (rooms st)) as [id|] eqn:Hid.
    + rewrite (createRoom_run _ _ _ _ _ Hid). cbv zeta.
      destruct callback; cbn [events registry rooms]; intros H.
      * apply elem_of_cons in H as [H|H]; [discriminate H|].
        apply list_elem_of_singleton in H. injection H as -> ->.
        exists [sid]. by rewrite lookup_insert_eq.
      * by apply not_elem_of_nil in H.
    + rewrite (createRoom_retrying _ _ _ _ Hid). by intros ?%not_elem_of_nil.
  - destruct (rooms_get (rooms st) id) as [members|len|] eqn:Hr.
    + apply rooms_get_OwnSet in Hr. rewrite (joinRoom_own _ _ _ _ _ Hr).
      cbv zeta. destruct (_ !! default "undefined" _) as [roomOwner|];
        [destruct callback|]; cbn [events registry rooms]; intros H.
      * apply elem_of_cons in H as [H|H]; [discriminate H|].
        apply list_elem_of_singleton in H. injection H as -> ->.
        exists (set_add sid members). rewrite lookup_insert_eq.
        split; [done|]. split; [apply set_add_nonempty|done].
      * by apply not_elem_of_nil in H.
      * by apply not_elem_of_nil in H.
    + rewrite (joinRoom_inherited _ _ _ _ _ Hr). by intros ?%not_elem_of_nil.
    + rewrite (joinRoom_missing _ _ _ _ Hr).
      destruct callback; cbn [events]; intros H; no_count H.
  - rewrite setUserServer_run.
    destruct (users st !! sid) as [u|]; [destruct (isObject v)|];
      destruct callback; cbv zeta; cbn [call emit throw events];
      intros H; no_count H.
  - rewrite setUserLibrary_run.
    destruct (users st !! sid) as [u|]; [destruct (isObject v)|];
      destruct callback; cbv zeta; cbn [call emit throw events];
      intros H; no_count H.
  - destruct (users st !! sid) as [u|] eqn:Hu.
    + destruct (decide (id ∈ upvoted u)) as [Hin|Hin].
      * rewrite (upvote_again _ _ _ _ _ Hu Hin). by intros ?%not_elem_of_nil.
      * rewrite (upvote_first _ _ _ _ _ Hu Hin). cbv zeta.
        match goal with
        | |- context [checkConsensus ?r ?m ?s] =>
            pose proof (checkConsensus_events s r m) as Hev;
            destruct (checkConsensus r m s) as [o st'' ev]
        end.
        cbn [events] in *. intros [H|H]%elem_of_app.
        -- destruct callback; cbn [is_function] in H; no_count H.
        -- apply Hev in H. discriminate H.
    + rewrite (upvote_unknown _ _ _ _ Hu).
      destruct callback; cbn [call emit throw events]; intros H; no_count H.
Qed.

(** C10. In a reachable registry, [requestUserCount] for a live room
    tells the room the size of its member set; for an id that [rooms]
    does not hold, [emitRoomUserCount] computes the count -1, and that is
    the count of whatever [requestUserCount] sends; a count sent by any
    other handler is never that sentinel: it is the positive size of the
    room as the handler leaves it. *)
Theorem requestUserCount_reports_size st sid id callback :
  reachable st ->
  (forall members, rooms st !! id = Some members ->
     NoDup members /\
     requestUserCount sid id callback st
     = mkRun (Normal tt) st [Emit id (userCount (Z.of_nat (length members)))]) /\
  (rooms st !! id = None ->
     emitRoomUserCount id st = mkRun (Normal tt) st [Emit id (userCount (-1))] /\
     outcome (requestUserCount sid id callback st) = Normal tt /\
     registry (requestUserCount sid id callback st) = st /\
     forall e, e ∈ events (requestUserCount sid id callback st) ->
       e = Emit id (userCount (-1))) /\
  (forall sender req room count,
     is_count_request req = false ->
     Emit room (userCount count) ∈ events (handle sender req st) ->
     0 < count /\
     exists members,
       rooms (registry (handle sender req st)) !! room = Some members /\
       count = Z.of_nat (length members)).
Proof.
  intros Hst. pose proof (reachable_wf st Hst) as Hwf. split_and!.
  - intros members Hr. split; [by apply (wf_nodup st Hwf id)|].
    rewrite requestUserCount_run, (rooms_get_own _ _ _ Hr).
    pose proof (wf_nonempty st Hwf id members Hr) as Hne.
    by destruct members.
  - intros Hr. pose proof (rooms_get_not_own _ _ Hr) as Hsize.
    split.
    { unfold emitRoomUserCount, bind, getRooms, emit. by rewrite Hsize. }
    rewrite requestUserCount_run.
    destruct (rooms_get (rooms st) id) as [members|len|]; [done|..];
      cbn [outcome registry events]; (split_and!; [done|done|]); intros e He.
    + by apply list_elem_of_singleton in He.
    + by apply not_elem_of_nil in He.
  - intros sender req room count Hreq Hin.
    destruct (handle_count_is_size st sender req room count Hreq Hin)
      as (members & Hr & Hne & ->).
    split; [destruct members; [done|cbn [length]; lia]|eauto].
Qed.

Lemma requestUserCount_reports_size_witness :
  reachable room_of_two /\
  requestUserCount "A" "0AFF" Js.AckFunction room_of_two
  = mkRun (Normal tt) room_of_two [Emit "0AFF" (userCount 2)].
Proof.
  assert (Hst : reachable room_of_two)
    by exact (newcomers_reachable _ room_of_two_newcomers).
  split; [exact Hst|].
  destruct (requestUserCount_reports_size room_of_two "A" "0AFF" Js.AckFunction
              Hst) as (Hlive & _).
  refine (proj2 (Hlive ["A"; "B"] _)). vm_compute. reflexivity.
Defined.

(** The one way the sentinel is sent: a request for the count of an id
    that names a member of [Object.prototype]. *)
Example requestUserCount_inherited_name :
  requestUserCount "s1" "constructor" Js.AckFunction initial
  = mkRun (Normal tt) initial [Emit "constructor" (userCount (-1))].
Proof. reflexivity. Qed.

(** * Further properties of the handlers *)

(** ** Room ids *)

Lemma hexByte_toHex b :
  match Js.toUpperCase (Js.toHex [b]) with
  | String hi (String lo EmptyString) =>
      hexByte hi lo = Some b /\ isUpperHex hi = true /\ isUpperHex lo = true
  | _ => False
  end.
Proof. destruct b; vm_compute; done. Qed.

Lemma getIdString_chars draw :
  exists a b c d,
    getIdString draw = String a (String b (String c (String d EmptyString))) /\
    hexByte a b = Some (fst draw) /\ hexByte c d = Some (snd draw) /\
    isUpperHex a = true /\ isUpperHex b = true /\
    isUpperHex c = true /\ isUpperHex d = true.
Proof.
  destruct draw as [b0 b1]. unfold getIdString. cbn [fst snd].
  pose proof (hexByte_toHex b0) as H0. pose proof (hexByte_toHex b1) as H1.
  cbn [Js.toHex Js.toUpperCase] in *.
  destruct H0 as (? & ? & ?), H1 as (? & ? & ?). eauto 12.
Qed.

Lemma parseIdString_getIdString draw : parseIdString (getIdString draw) = Some draw.
Proof.
  destruct (getIdString_chars draw) as (a & b & c & d & -> & Hab & Hcd & _).
  cbn [parseIdString]. rewrite Hab, Hcd. by destruct draw.
Qed.

(** X1. A room id is four characters among 0-9 and A-F, and it keeps the
    whole draw: two draws give the same id only when they are the same
    two bytes, so the 65536 draws give 65536 ids. *)
Theorem getIdString_format_injective draw :
  String.length (getIdString draw) = 4%nat /\
  forallb isUpperHex (list_ascii_of_string (getIdString draw)) = true /\
  (forall draw', getIdString draw = getIdString draw' <-> draw = draw').
Proof.
  destruct (getIdString_chars draw) as (a & b & c & d & Hid & _ & _ & Ha & Hb & Hc & Hd).
  split_and!.
  - by rewrite Hid.
  - rewrite Hid. cbn [list_ascii_of_string forallb]. by rewrite Ha, Hb, Hc, Hd.
  - intros draw'. split; [|by intros ->]. intros Heq.
    pose proof (parseIdString_getIdString draw) as H1.
    rewrite Heq, parseIdString_getIdString in H1. congruence.
Qed.
(** ** Handlers as one equation each *)

Lemma disconnect_run st sid :
  disconnect sid st =
    match users st !! sid with
    | None => mkRun (Normal tt) st []
    | Some u =>
        match rooms_get (rooms st) (roomId u) with
        | OwnSet members =>
            if decide (set_delete sid members = [])
            then mkRun (Normal tt)
                   (mkRegistry (delete (roomId u) (rooms st))
                      (delete sid (users st))) []
            else mkRun (Normal tt)
                   (mkRegistry (<[roomId u := set_delete sid members]> (rooms st))
                      (delete sid (users st)))
                   [Emit (roomId u)
                      (userCount (Z.of_nat (length (set_delete sid members))))]
        | Inherited _ => mkRun (Throw Js.TypeError) st []
        | Missing =>
            mkRun (Normal tt) (mkRegistry (rooms st) (delete sid (users st))) []
        end
    end.
Proof.
  destruct (users st !! sid) as [u|] eqn:Hu; [|by apply disconnect_unknown].
  destruct (rooms_get (rooms st) (roomId u)) as [members|len|] eqn:Hr.
  - apply rooms_get_OwnSet in Hr. by apply disconnect_own.
  - by apply (disconnect_inherited _ _ u len).
  - by apply (disconnect_missing _ _ u).
Qed.

Lemma createRoom_cases st sid callback draws :
  createRoom sid callback draws st =
    match generateRoomId draws (rooms st) with
    | Some id =>
        let st' := mkRegistry (<[id := [sid]]> (rooms st))
                     (<[sid := createUser id]> (users st)) in
        match callback with
        | Js.AckFunction =>
            mkRun (Normal tt) st' [Ack sid (ReplyId id); Emit id (userCount 1)]
        | Js.NotAFunction => mkRun (Throw Js.TypeError) st' []
        end
    | None => mkRun Retrying st []
    end.
Proof.
  destruct (generateRoomId draws (rooms st)) as [id|] eqn:Hid.
  - by apply createRoom_run.
  - by apply createRoom_retrying.
Qed.

Lemma joinRoom_run st sid id callback :
  joinRoom sid id callback st =
    match rooms_get (rooms st) id with
    | OwnSet members =>
        let members' := set_add sid members in
        let rs' := <[id := members']> (rooms st) in
        let us' := <[sid := createUser id]> (users st) in
        match us' !! default "undefined" (head members') with
        | None => mkRun (Throw Js.TypeError) (mkRegistry rs' us') []
        | Some roomOwner =>
            let joined := mkUser id (server roomOwner) (library roomOwner) ∅ in
            let st' := mkRegistry rs' (<[sid := joined]> (users st)) in
            match callback with
            | Js.AckFunction =>
                mkRun (Normal tt) st'
                  [Ack sid (ReplyJoined (server roomOwner) (library roomOwner));
                   Emit id (userCount (Z.of_nat (length members')))]
            | Js.NotAFunction => mkRun (Throw Js.TypeError) st' []
            end
        end
    | Inherited _ => mkRun (Throw Js.TypeError) st []
    | Missing =>
        call callback sid
          (ReplyStatus false ("Unable to find room with the Id: " +:+ id)) st
    end.
Proof.
  destruct (rooms_get (rooms st) id) as [members|len|] eqn:Hr.
  - apply rooms_get_OwnSet in Hr. by apply joinRoom_own.
  - by apply (joinRoom_inherited _ _ _ _ len).
  - rewrite (joinRoom_missing _ _ _ _ Hr). by destruct callback.
Qed.

Lemma checkConsensus_run st roomId mediaId :
  checkConsensus roomId mediaId st =
    if truthy (rooms_get (rooms st) roomId) then
      match every_upvoted (users st) mediaId
              (array_from (rooms_get (rooms st) roomId)) with
      | Normal true =>
          mkRun (Normal tt) st [Emit roomId (consensusReached mediaId)]
      | Normal false => mkRun (Normal tt) st []
      | Throw e => mkRun (Throw e) st []
      | Retrying => mkRun Retrying st []
      end
    else mkRun (Normal tt) st [].
Proof.
  unfold checkConsensus, bind, getRooms.
  destruct (truthy (rooms_get (rooms st) roomId)); [|reflexivity].
  cbn [negb]. rewrite every_has_upvoted.
  by destruct (every_upvoted _ _ _) as [[|]| |].
Qed.

Lemma upvote_run st sid id callback :
  upvote sid id callback st =
    match users st !! sid with
    | None =>
        call callback sid
          (ReplyStatus false ("Unable to find user with the Id: " +:+ sid)) st
    | Some u =>
        if bool_decide (id ∈ upvoted u) then mkRun (Normal tt) st []
        else
          let voted :=
            mkUser (roomId u) (server u) (library u) ({[id]} ∪ upvoted u) in
          let us' := <[sid := voted]> (users st) in
          let st' := mkRegistry (rooms st) us' in
          let acks := if is_function callback
                      then [Ack sid (ReplyStatus true "Upvoted successfully.")]
                      else [] in
          let entry := rooms_get (rooms st) (roomId u) in
          if truthy entry then
            match every_upvoted us' id (array_from entry) with
            | Normal true =>
                mkRun (Normal tt) st'
                  (acks ++ [Emit (roomId u) (consensusReached id)])
            | Normal false => mkRun (Normal tt) st' acks
            | Throw e => mkRun (Throw e) st' acks
            | Retrying => mkRun Retrying st' acks
            end
          else mkRun (Normal tt) st' acks
    end.
Proof.
  destruct (users st !! sid) as [u|] eqn:Hu; [|by apply upvote_unknown].
  case_bool_decide as Hin; [by apply (upvote_again _ _ _ _ u)|].
  rewrite (upvote_first _ _ _ _ _ Hu Hin). cbv zeta. rewrite checkConsensus_run.
  cbn [rooms users].
  destruct (truthy _); [|by rewrite app_nil_r].
  destruct (every_upvoted _ _ _) as [[|]| |]; by rewrite ?app_nil_r.
Qed.

(** ** Room ids as they are generated *)

(** X2. [generateRoomId] answers with the id of the first draw that is
    not an own property of [rooms], skipping exactly the draws that
    collide; it has no answer only when every supplied draw collides. *)
Theorem generateRoomId_first_free_draw draws rs :
  match generateRoomId draws rs with
  | Some id =>
      rs !! id = None /\
      exists skipped draw rest,
        draws = (skipped ++ draw :: rest)%list /\ id = getIdString draw /\
        forall d, d ∈ skipped -> is_Some (rs !! getIdString d)
  | None => forall d, d ∈ draws -> is_Some (rs !! getIdString d)
  end.
Proof.
  induction draws as [|draw rest IH]; cbn [generateRoomId].
  - by intros d ?%not_elem_of_nil.
  - destruct (rs !! getIdString draw) as [members|] eqn:Hown.
    + destruct (generateRoomId rest rs) as [id|].
      * destruct IH as (Hfree & skipped & draw' & rest' & -> & -> & Hskipped).
        split; [done|]. exists (draw :: skipped), draw', rest'.
        split_and!; [done|done|].
        intros d [->|Hd]%elem_of_cons; [by rewrite Hown|by apply Hskipped].
      * intros d [->|Hd]%elem_of_cons; [by rewrite Hown|by apply IH].
    + split; [done|]. exists [], draw, rest. split_and!; [done|done|].
      by intros d ?%not_elem_of_nil.
Qed.

Lemma generateRoomId_generated draws rs id :
  generateRoomId draws rs = Some id -> exists draw, id = getIdString draw.
Proof.
  induction draws as [|draw rest IH]; cbn [generateRoomId]; [done|].
  destruct (rs !! getIdString draw); [exact IH|]. intros [= <-]. eauto.
Qed.

(** X3. With a free draw, [createRoom] opens a room under an id that was
    not live, with the creator as its only member and a [User] with empty
    descriptors and no vote; it answers with the id and tells the room
    the count 1; no other room and no other [User] changes. Without an
    acknowledgement function the same room is made, and the handler then
    raises before anything is sent. *)
Theorem createRoom_opens_fresh_room st sid draws id :
  generateRoomId draws (rooms st) = Some id ->
  rooms st !! id = None /\
  (let r := createRoom sid Js.AckFunction draws st in
   outcome r = Normal tt /\
   events r = [Ack sid (ReplyId id); Emit id (userCount 1)] /\
   rooms (registry r) !! id = Some [sid] /\
   users (registry r) !! sid = Some (mkUser id (Js.Str "") (Js.Str "") ∅) /\
   (forall other, other <> id -> rooms (registry r) !! other = rooms st !! other) /\
   (forall other, other <> sid -> users (registry r) !! other = users st !! other)) /\
  (let r := createRoom sid Js.NotAFunction draws st in
   outcome r = Throw Js.TypeError /\ events r = [] /\
   registry r = registry (createRoom sid Js.AckFunction draws st)).
Proof.
  intros Hid. split; [by apply (generateRoomId_fresh draws)|].
  rewrite !createRoom_cases, Hid. cbv zeta.
  cbn [outcome events registry rooms users]. split; [|done].
  split_and!; [done|done|apply lookup_insert_eq|apply lookup_insert_eq|..].
  - intros other Hne. by rewrite lookup_insert_ne.
  - intros other Hne. by rewrite lookup_insert_ne.
Qed.

Lemma createRoom_opens_fresh_room_witness :
  generateRoomId [(Byte.x0a, Byte.xff); (Byte.x12, Byte.x34)] (rooms room_of_two)
  = Some "1234" /\
  events
    (createRoom "C" Js.AckFunction [(Byte.x0a, Byte.xff); (Byte.x12, Byte.x34)]
       room_of_two)
  = [Ack "C" (ReplyId "1234"); Emit "1234" (userCount 1)].
Proof.
  assert (Hid : generateRoomId [(Byte.x0a, Byte.xff); (Byte.x12, Byte.x34)]
                  (rooms room_of_two) = Some "1234")
    by (vm_compute; reflexivity).
  split; [exact Hid|].
  exact (proj1 (proj2 (proj1 (proj2
           (createRoom_opens_fresh_room room_of_two "C" _ "1234" Hid))))).
Defined.

(** ** What a request leaves alone *)

Lemma transition_others st sid entering st' other :
  transition st sid entering st' -> other <> sid ->
  users st' !! other = users st !! other /\
  forall id, in_room st' id other <-> in_room st id other.
Proof.
  intros Ht Hne.
  destruct Ht as [entering|id0 Hfresh Hname|id0 members sv lb Hr|u members Hu Hr
                 |u Hu Hr|u u' Hu Hsame]; cbn [rooms users]; unfold in_room;
    cbn [rooms users].
  - done.
  - split; [by rewrite lookup_insert_ne|]. intros id.
    destruct (decide (id = id0)) as [->|Hid].
    + rewrite lookup_insert_eq, Hfresh. split.
      * intros (ms & [= <-] & ->%list_elem_of_singleton). done.
      * by intros (ms & ? & _).
    + by rewrite lookup_insert_ne.
  - split; [by rewrite lookup_insert_ne|]. intros id.
    destruct (decide (id = id0)) as [->|Hid].
    + rewrite lookup_insert_eq, Hr. split.
      * intros (ms & [= <-] & [->|Hin]%elem_of_set_add); [done|eauto].
      * intros (ms & [= <-] & Hin). eexists. split; [done|].
        apply elem_of_set_add. by right.
    + by rewrite lookup_insert_ne.
  - split; [by rewrite lookup_delete_ne|]. intros id.
    destruct (decide (id = roomId u)) as [->|Hid].
    + rewrite Hr. destruct (decide (set_delete sid members = [])) as [Hnil|Hcons].
      * rewrite lookup_delete_eq. split; [by intros (ms & ? & _)|].
        intros (ms & [= <-] & Hin).
        assert (other ∈ set_delete sid members) as Hin'
          by (by apply elem_of_set_delete).
        rewrite Hnil in Hin'. by apply not_elem_of_nil in Hin'.
      * rewrite lookup_insert_eq. split.
        -- intros (ms & [= <-] & [Hin _]%elem_of_set_delete). eauto.
        -- intros (ms & [= <-] & Hin). eexists. split; [done|].
           by apply elem_of_set_delete.
    + destruct (decide (set_delete sid members = [])).
      * by rewrite lookup_delete_ne.
      * by rewrite lookup_insert_ne.
  - split; [by rewrite lookup_delete_ne|done].
  - split; [by rewrite lookup_insert_ne|done].
Qed.

(** X4. A request changes nothing that belongs to another connection:
    whatever [sid] sends and however the handler ends, the [User] of any
    other socket id is the same afterwards, and so is its membership of
    every room. *)
Theorem handle_leaves_others_alone st sid req other :
  other <> sid ->
  let st' := registry (handle sid req st) in
  users st' !! other = users st !! other /\
  forall id, in_room st' id other <-> in_room st id other.
Proof.
  intros Hne. cbv zeta.
  apply (transition_others st sid (enters req)); [apply handle_transition|done].
Qed.

Lemma handle_leaves_others_alone_witness :
  "A" <> "B" /\
  users (registry (handle "B" Disconnect room_of_two)) !! "A"
  = users room_of_two !! "A".
Proof.
  assert (Hne : "A" <> "B") by discriminate.
  split; [exact Hne|].
  exact (proj1 (handle_leaves_others_alone room_of_two "B" Disconnect "A" Hne)).
Defined.

(** ** What every reachable registry keeps *)

Lemma handle_rooms_generated st sid req :
  (forall id members, rooms st !! id = Some members ->
     exists draw, id = getIdString draw) ->
  forall id members, rooms (registry (handle sid req st)) !! id = Some members ->
    exists draw, id = getIdString draw.
Proof.
  intros Hgen id ms.
  destruct req as [|callback draws|id0 callback|v callback|v callback
                  |id0 callback|id0 callback]; cbn [handle];
    rewrite ?disconnect_run, ?createRoom_cases, ?joinRoom_run,
      ?setUserServer_run, ?setUserLibrary_run, ?requestUserCount_run,
      ?upvote_run; cbv zeta; unfold call, emit, throw;
    repeat case_match; cbn [registry rooms]; try apply Hgen.
  all: try match goal with
       | H : generateRoomId _ _ = Some ?i |- _ =>
           apply generateRoomId_generated in H as [draw ->]
       end.
  all: try match goal with
       | H : rooms_get _ ?i = OwnSet ?m |- _ => apply rooms_get_OwnSet in H
       end.
  all: first
    [ rewrite lookup_delete_Some; intros [_ H']; eapply Hgen, H'
    | rewrite lookup_insert_Some; intros [[<- _]|[_ H']]; eauto ].
Qed.

Lemma reachable_generated st :
  reachable st ->
  forall id members, rooms st !! id = Some members ->
    exists draw, id = getIdString draw.
Proof.
  induction 1 as [|st sid req _ IH].
  - intros id members. cbn [initial rooms]. by rewrite lookup_empty.
  - by apply handle_rooms_generated.
Qed.

(** X5. In every registry the handlers can reach, whoever sent what:
    each [User] names a live room whose member set holds its socket id;
    every live room has at least one member, holds no socket id twice,
    and has an id that [getIdString] produced. *)
Theorem reachable_rooms_and_records st :
  reachable st ->
  (forall sid u, users st !! sid = Some u -> in_room st (roomId u) sid) /\
  (forall id members, rooms st !! id = Some members ->
     members <> [] /\ NoDup members /\ exists draw, id = getIdString draw).
Proof.
  intros Hst. pose proof (reachable_wf st Hst) as Hwf. split.
  - intros sid u Hu. by apply (wf_user_room st Hwf).
  - intros id members Hr. split_and!.
    + by apply (wf_nonempty st Hwf id).
    + by apply (wf_nodup st Hwf id).
    + by apply (reachable_generated st Hst id members).
Qed.

Lemma reachable_rooms_and_records_witness :
  reachable (registry (run_all leaving_run initial)) /\
  in_room (registry (run_all leaving_run initial)) "0AFF" "B".
Proof.
  split; [exact leaving_run_reachable|].
  apply (proj1 (reachable_rooms_and_records _ leaving_run_reachable)
           "B" (createUser "0AFF")).
  by rewrite leaving_run_users.
Defined.

(** ** What a member keeps *)

(** X6. A member's requests other than create, join and disconnect never
    move it or take a vote back: after [setUserServer], [setUserLibrary],
    [requestUserCount] or [upvote], however the handler ends, its [User]
    names the same room and holds every vote it held, [rooms] is
    unchanged, and a descriptor changes only through its own setter. *)
Theorem member_requests_keep_room_and_votes st sid req u :
  users st !! sid = Some u ->
  enters req = false -> req <> Disconnect ->
  let st' := registry (handle sid req st) in
  rooms st' = rooms st /\
  exists u',
    users st' !! sid = Some u' /\ roomId u' = roomId u /\
    upvoted u ⊆ upvoted u' /\
    ((forall v callback, req <> SetUserServer v callback) -> server u' = server u) /\
    ((forall v callback, req <> SetUserLibrary v callback) -> library u' = library u).
Proof.
  intros Hu Henters Hdisc. cbv zeta.
  destruct req as [|callback draws|id0 callback|v callback|v callback
                  |id0 callback|id0 callback]; try done; cbn [handle];
    rewrite ?setUserServer_run, ?setUserLibrary_run, ?requestUserCount_run,
      ?upvote_run, ?Hu; cbv zeta; unfold call, emit, throw;
    repeat case_match; cbn [registry rooms users]; (split; [done|]);
    rewrite ?lookup_insert_eq;
    (eexists; split; [done|]); cbn [roomId server library upvoted];
    split_and!; try done; try set_solver.
Qed.

Lemma member_requests_keep_room_and_votes_witness :
  users room_of_two !! "A" = Some (createUser "0AFF") /\
  rooms (registry (handle "A" (Upvote "42" Js.NotAFunction) room_of_two))
  = rooms room_of_two.
Proof.
  assert (Hu : users room_of_two !! "A" = Some (createUser "0AFF"))
    by (apply room_of_two_users; by left).
  split; [exact Hu|].
  refine (proj1 (member_requests_keep_room_and_votes room_of_two "A"
                   (Upvote "42" Js.NotAFunction) _ Hu eq_refl _)).
  discriminate.
Defined.

(** ** Broadcast helpers *)

(** X7. [checkConsensus] only reads: the registry it leaves is the one it
    found, and all it can send is the one [consensusReached] for the room
    and the item it was given, in which case it completed. *)
Theorem checkConsensus_only_reads st roomId mediaId :
  let r := checkConsensus roomId mediaId st in
  registry r = st /\
  (events r = [] \/
   events r = [Emit roomId (consensusReached mediaId)] /\ outcome r = Normal tt).
Proof.
  cbv zeta. rewrite checkConsensus_run.
  destruct (truthy _); [|by split; [|left]].
  destruct (every_upvoted _ _ _) as [[|]| |]; cbn [registry events outcome];
    split; auto.
Qed.

(** ** Joining and voting *)

(** X8. A member who has just joined blocks the consensus: after a join
    that succeeded, an upvote by any other connection, for any item, sends
    nothing but that connection's own acknowledgement, because the joiner
    is in the room it names with an empty upvoted set. *)
Theorem joiner_blocks_consensus st sid id first rest roomOwner voter v
    item callback :
  rooms st !! id = Some (first :: rest) ->
  users st !! first = Some roomOwner ->
  first <> sid ->
  users st !! voter = Some v -> roomId v = id -> voter <> sid ->
  let st1 := registry (joinRoom sid id Js.AckFunction st) in
  outcome (joinRoom sid id Js.AckFunction st) = Normal tt /\
  forall e, e ∈ events (upvote voter item callback st1) ->
    e = Ack voter (ReplyStatus true "Upvoted successfully.").
Proof.
  intros Hr Hown Hne Hv Hroom Hvoter. cbv zeta.
  rewrite (joinRoom_copies _ _ _ _ _ _ Hr Hown Hne). cbn [outcome registry].
  split; [done|]. rewrite upvote_run. cbn [rooms users].
  rewrite lookup_insert_ne by done. rewrite Hv.
  case_bool_decide as Hin; [by intros ev ?%not_elem_of_nil|]. cbv zeta.
  rewrite Hroom, (rooms_get_own _ _ (set_add sid (first :: rest)))
    by apply lookup_insert_eq.
  cbn [truthy array_from].
  match goal with
  | |- context [every_upvoted ?us item ?ms] =>
      pose proof (every_upvoted_true us item ms) as Htrue;
      destruct (every_upvoted us item ms) as [[|]| |]
  end; cbn [events].
  - destruct (proj1 Htrue eq_refl sid) as (joined & Hjoined & Hvoted).
    { apply elem_of_set_add. by left. }
    rewrite lookup_insert_ne, lookup_insert_eq in Hjoined by done.
    injection Hjoined as <-. cbn [upvoted] in Hvoted.
    by apply not_elem_of_empty in Hvoted.
  - destruct callback; cbn [is_function]; intros ev He;
      [by apply list_elem_of_singleton in He|by apply not_elem_of_nil in He].
  - destruct callback; cbn [is_function]; intros ev He;
      [by apply list_elem_of_singleton in He|by apply not_elem_of_nil in He].
  - destruct callback; cbn [is_function]; intros ev He;
      [by apply list_elem_of_singleton in He|by apply not_elem_of_nil in He].
Qed.

Lemma joiner_blocks_consensus_witness :
  rooms room_of_two !! "0AFF" = Some ["A"; "B"] /\
  users room_of_two !! "A" = Some (createUser "0AFF") /\
  users room_of_two !! "B" = Some (createUser "0AFF") /\
  outcome (joinRoom "C" "0AFF" Js.AckFunction room_of_two) = Normal tt.
Proof.
  assert (Hr : rooms room_of_two !! "0AFF" = Some ["A"; "B"])
    by (by rewrite room_of_two_rooms).
  assert (HA : users room_of_two !! "A" = Some (createUser "0AFF"))
    by (apply room_of_two_users; by left).
  assert (HB : users room_of_two !! "B" = Some (createUser "0AFF"))
    by (apply room_of_two_users; by right).
  split_and!; [exact Hr|exact HA|exact HB|].
  refine (proj1 (joiner_blocks_consensus room_of_two "C" "0AFF" "A" ["B"]
                   (createUser "0AFF") "B" (createUser "0AFF") "42"
                   Js.AckFunction Hr HA _ HB eq_refl _)); discriminate.
Defined.

(** ** Leaving and coming back *)

Lemma set_delete_absent x members : x ∉ members -> set_delete x members = members.
Proof.
  intros Hx. unfold set_delete.
  induction members as [|y rest IH]; [done|].
  apply not_elem_of_cons in Hx as [Hxy Hrest].
  rewrite filter_cons_True by done. by rewrite IH.
Qed.

Lemma set_delete_set_add x members :
  x ∉ members -> set_delete x (set_add x members) = members.
Proof.
  intros Hx. unfold set_add. rewrite bool_decide_eq_false_2 by done.
  unfold set_delete. rewrite filter_app, filter_cons_False, filter_nil by auto.
  rewrite app_nil_r. by apply set_delete_absent.
Qed.

(** X9. After [disconnect], in a reachable registry, the connection is
    unknown: the handler completed and its [User] is gone, a second
    [disconnect] does nothing at all, and [setUserServer],
    [setUserLibrary] and [upvote] are answered with the not-found message
    without changing anything. *)
Theorem disconnect_then_unknown st sid v item :
  reachable st ->
  let st1 := registry (disconnect sid st) in
  let unknown :=
    [Ack sid (ReplyStatus false ("Unable to find user with the Id: " +:+ sid))] in
  outcome (disconnect sid st) = Normal tt /\
  users st1 !! sid = None /\
  disconnect sid st1 = mkRun (Normal tt) st1 [] /\
  setUserServer sid v Js.AckFunction st1 = mkRun (Normal tt) st1 unknown /\
  setUserLibrary sid v Js.AckFunction st1 = mkRun (Normal tt) st1 unknown /\
  upvote sid item Js.AckFunction st1 = mkRun (Normal tt) st1 unknown.
Proof.
  intros Hst. cbv zeta. pose proof (reachable_wf st Hst) as Hwf.
  assert (Hdone : outcome (disconnect sid st) = Normal tt /\
                  users (registry (disconnect sid st)) !! sid = None).
  { rewrite disconnect_run. destruct (users st !! sid) as [u|] eqn:Hu; [|done].
    destruct (wf_user_room st Hwf sid u Hu) as (members & Hr & _).
    rewrite (rooms_get_own _ _ _ Hr).
    destruct (decide _); cbn [outcome registry users];
      by rewrite lookup_delete_eq. }
  destruct Hdone as [Hout Hgone]. split; [done|]. split; [done|].
  rewrite disconnect_run, setUserServer_run, setUserLibrary_run, upvote_run, Hgone.
  done.
Qed.

Lemma disconnect_then_unknown_witness :
  reachable room_of_two /\
  users (registry (disconnect "A" room_of_two)) !! "A" = None.
Proof.
  assert (Hst : reachable room_of_two)
    by exact (newcomers_reachable _ room_of_two_newcomers).
  split; [exact Hst|].
  exact (proj1 (proj2 (disconnect_then_unknown room_of_two "A" Js.Null "42" Hst))).
Defined.

(** X10. A room created and left at once leaves no trace: for a
    connection without a [User] and a free draw, [createRoom] followed by
    [disconnect] gives back the registry it started from, having sent the
    id and the count 1 only. *)
Theorem createRoom_then_disconnect_restores st sid draws id :
  users st !! sid = None ->
  generateRoomId draws (rooms st) = Some id ->
  run_all [(sid, CreateRoom Js.AckFunction draws); (sid, Disconnect)] st
  = mkRun (Normal tt) st [Ack sid (ReplyId id); Emit id (userCount 1)].
Proof.
  intros Hnew Hid. pose proof (generateRoomId_fresh _ _ _ Hid) as [Hfresh _].
  cbn [run_all handle]. unfold bind.
  rewrite createRoom_cases, Hid. cbv beta iota zeta. rewrite disconnect_run.
  cbn [rooms users]. rewrite lookup_insert_eq. cbn [createUser roomId].
  rewrite (rooms_get_own _ _ [sid]) by apply lookup_insert_eq.
  replace (set_delete sid [sid]) with (@nil string)
    by (symmetry; apply (set_delete_set_add sid []), not_elem_of_nil).
  rewrite decide_True by done. cbn [ret app].
  rewrite !delete_insert_id by done. by destruct st.
Qed.

Lemma createRoom_then_disconnect_restores_witness :
  users room_of_two !! "C" = None /\
  generateRoomId [(Byte.x12, Byte.x34)] (rooms room_of_two) = Some "1234" /\
  registry
    (run_all [("C", CreateRoom Js.AckFunction [(Byte.x12, Byte.x34)]);
              ("C", Disconnect)] room_of_two)
  = room_of_two.
Proof.
  assert (Hnew : users room_of_two !! "C" = None) by (vm_compute; reflexivity).
  assert (Hid : generateRoomId [(Byte.x12, Byte.x34)] (rooms room_of_two)
                = Some "1234") by (vm_compute; reflexivity).
  split_and!; [exact Hnew|exact Hid|].
  by rewrite (createRoom_then_disconnect_restores room_of_two "C" _ "1234"
                Hnew Hid).
Defined.

(** X11. Joining and leaving at once is undone too: when a connection
    without a [User], not in the room, joins a live room whose earliest
    member has a [User] and then disconnects, the registry is the one it
    started from; the room was told its size with and then without the
    guest. *)
Theorem joinRoom_then_disconnect_restores st sid id first rest roomOwner :
  rooms st !! id = Some (first :: rest) ->
  users st !! first = Some roomOwner ->
  users st !! sid = None ->
  sid ∉ first :: rest ->
  run_all [(sid, JoinRoom id Js.AckFunction); (sid, Disconnect)] st
  = mkRun (Normal tt) st
      [Ack sid (ReplyJoined (server roomOwner) (library roomOwner));
       Emit id (userCount (Z.of_nat (S (length (first :: rest)))));
       Emit id (userCount (Z.of_nat (length (first :: rest))))].
Proof.
  intros Hr Hown Hnew Hout.
  assert (Hne : first <> sid) by (intros ->; apply Hout; by left).
  cbn [run_all handle]. unfold bind.
  rewrite (joinRoom_copies _ _ _ _ _ _ Hr Hown Hne). cbv beta iota zeta.
  rewrite disconnect_run.
  cbn [rooms users]. rewrite lookup_insert_eq. cbn [roomId].
  rewrite (rooms_get_own _ _ (set_add sid (first :: rest)))
    by apply lookup_insert_eq.
  rewrite (set_delete_set_add _ _ Hout). rewrite decide_False by done.
  cbn [ret app]. rewrite insert_insert_eq, (insert_id _ _ _ Hr).
  rewrite delete_insert_id by done.
  unfold set_add. rewrite bool_decide_eq_false_2 by done.
  rewrite length_app. cbn [length]. rewrite Nat.add_1_r. by destruct st.
Qed.

Lemma joinRoom_then_disconnect_restores_witness :
  rooms room_of_two !! "0AFF" = Some ["A"; "B"] /\
  users room_of_two !! "A" = Some (createUser "0AFF") /\
  users room_of_two !! "C" = None /\
  ("C" ∉ ["A"; "B"]) /\
  registry
    (run_all [("C", JoinRoom "0AFF" Js.AckFunction); ("C", Disconnect)]
       room_of_two)
  = room_of_two.
Proof.
  assert (Hr : rooms room_of_two !! "0AFF" = Some ["A"; "B"])
    by (by rewrite room_of_two_rooms).
  assert (HA : users room_of_two !! "A" = Some (createUser "0AFF"))
    by (apply room_of_two_users; by left).
  assert (Hnew : users room_of_two !! "C" = None) by (vm_compute; reflexivity).
  assert (Hout : "C" ∉ ["A"; "B"]).
  { intros [H|[H|H%not_elem_of_nil]%elem_of_cons]%elem_of_cons;
      [discriminate H|discriminate H|done]. }
  split_and!; [exact Hr|exact HA|exact Hnew|exact Hout|].
  by rewrite (joinRoom_then_disconnect_restores room_of_two "C" "0AFF" "A" ["B"]
                (createUser "0AFF") Hr HA Hnew Hout).
Defined.

(** ** Handlers that do not raise *)

(** X12. In a registry reached by runs where only connections without a
    [User] create or join, an answerable request never raises: the only
    ways to a [TypeError] are then a missing acknowledgement function and
    a join under the name of a member of [Object.prototype]. *)
Theorem answerable_request_never_raises st sid req :
  reachable_by_newcomers st -> answerable st sid req ->
  forall e, outcome (handle sid req st) <> Throw e.
Proof.
  intros Hst Hreq e.
  pose proof (newcomers_members_known st Hst) as Hknown.
  pose proof (reachable_wf st (newcomers_reachable st Hst)) as Hwf.
  destruct req as [|callback draws|id callback|v callback|v callback
                  |id callback|id callback]; cbn [handle answerable] in *.
  - rewrite disconnect_run. destruct (users st !! sid) as [u|] eqn:Hu; [|done].
    destruct (wf_user_room st Hwf sid u Hu) as (members & Hr & _).
    rewrite (rooms_get_own _ _ _ Hr). by destruct (decide _).
  - subst callback. rewrite createRoom_cases.
    by destruct (generateRoomId draws (rooms st)).
  - destruct Hreq as [-> Hname]. rewrite joinRoom_run. unfold rooms_get.
    rewrite Hname. destruct (rooms st !! id) as [members|] eqn:Hr; [|done].
    cbv zeta. pose proof (wf_nonempty st Hwf id members Hr) as Hne.
    destruct members as [|first rest]; [done|].
    rewrite head_set_add. cbn [from_option]. unfold Datatypes.id.
    destruct (decide (first = sid)) as [->|Hfirst].
    + by rewrite lookup_insert_eq.
    + rewrite lookup_insert_ne by done.
      destruct (Hknown id (first :: rest) first Hr) as (u & -> & _);
        [by left|done].
  - subst callback. rewrite setUserServer_run.
    destruct (users st !! sid); [destruct (isObject v)|]; done.
  - subst callback. rewrite setUserLibrary_run.
    destruct (users st !! sid); [destruct (isObject v)|]; done.
  - rewrite requestUserCount_run. by destruct (rooms_get (rooms st) id).
  - rewrite upvote_run. destruct (users st !! sid) as [u|] eqn:Hu.
    + case_bool_decide; [done|]. cbv zeta.
      destruct (wf_user_room st Hwf sid u Hu) as (members & Hr & _).
      rewrite (rooms_get_own _ _ _ Hr). cbn [truthy array_from].
      match goal with
      | |- context [every_upvoted ?us id members] =>
          destruct (every_upvoted_total us id members) as [b ->]
      end; [|by destruct b].
      intros s Hs. destruct (decide (s = sid)) as [->|Hne].
      * by rewrite lookup_insert_eq.
      * rewrite lookup_insert_ne by done.
        destruct (Hknown (roomId u) members s Hr Hs) as (w & -> & _). done.
    + destruct Hreq as [->|[u Hu']]; [done|congruence].
Qed.

Lemma answerable_request_never_raises_witness :
  reachable_by_newcomers room_of_two /\
  answerable room_of_two "A" (Upvote "42" Js.NotAFunction) /\
  outcome (handle "A" (Upvote "42" Js.NotAFunction) room_of_two)
  <> Throw Js.TypeError.
Proof.
  assert (Hreq : answerable room_of_two "A" (Upvote "42" Js.NotAFunction)).
  { right. rewrite room_of_two_users by (by left). eauto. }
  split_and!; [exact room_of_two_newcomers|exact Hreq|].
  exact (answerable_request_never_raises room_of_two "A" _
           room_of_two_newcomers Hreq Js.TypeError).
Defined.

(** ** Counts and sizes *)

Lemma last_count_app room ev1 ev2 :
  last_count room (ev1 ++ ev2) =
    match last_count room ev2 with
    | Some count => Some count
    | None => last_count room ev1
    end.
Proof.
  induction ev1 as [|e rest IH]; cbn [app last_count].
  - by destruct (last_count room ev2).
  - rewrite IH. by destruct (last_count room ev2).
Qed.

Lemma last_count_one room r count :
  last_count room [Emit r (userCount count)] =
    if decide (r = room) then Some count else None.
Proof.
  cbn [last_count]. destruct (String.eqb_spec r room); by case_decide.
Qed.

Lemma last_count_ack room s reply rest :
  last_count room (Ack s reply :: rest) = last_count room rest.
Proof. cbn [last_count]. by destruct (last_count room rest). Qed.

(** The count, if any, that a completed handler sends a room that is live
    afterwards is the size of that room; without one, the room is as it
    was. *)
Lemma handle_last_count st sid req id members :
  wf st -> outcome (handle sid req st) = Normal tt ->
  rooms (registry (handle sid req st)) !! id = Some members ->
  last_count id (events (handle sid req st)) = Some (Z.of_nat (length members))
  \/ (last_count id (events (handle sid req st)) = None /\
      rooms st !! id = Some members).
Proof.
  intros Hwf.
  destruct req as [|callback draws|id0 callback|v callback|v callback
                  |id0 callback|id0 callback]; cbn [handle].
  - rewrite disconnect_run. destruct (users st !! sid) as [u|]; [|by right].
    destruct (rooms_get (rooms st) (roomId u)) as [ms|len|]; [|done|by right].
    destruct (decide _); cbn [outcome registry rooms events]; intros _.
    + rewrite lookup_delete_Some. intros [_ H]. by right.
    + rewrite last_count_one, lookup_insert_Some.
      intros [[<- <-]|[Hne H]]; [left|right];
        by rewrite ?decide_True, ?decide_False by done.
  - rewrite createRoom_cases.
    destruct (generateRoomId draws (rooms st)) as [new|]; [|done]. cbv zeta.
    destruct callback; [|done]. cbn [outcome registry rooms events]. intros _.
    rewrite last_count_ack, last_count_one, lookup_insert_Some.
    intros [[<- <-]|[Hne H]]; [left|right];
      by rewrite ?decide_True, ?decide_False by done.
  - rewrite joinRoom_run.
    destruct (rooms_get (rooms st) id0) as [ms|len|]; [|done|].
    + cbv zeta. destruct (_ !! default "undefined" _) as [roomOwner|]; [|done].
      destruct callback; [|done]. cbn [outcome registry rooms events]. intros _.
      rewrite last_count_ack, last_count_one, lookup_insert_Some.
      intros [[<- <-]|[Hne H]]; [left|right];
        by rewrite ?decide_True, ?decide_False by done.
    + destruct callback; [|done]. by right.
  - rewrite setUserServer_run.
    destruct (users st !! sid); [destruct (isObject v)|]; destruct callback;
      try done; by right.
  - rewrite setUserLibrary_run.
    destruct (users st !! sid); [destruct (isObject v)|]; destruct callback;
      try done; by right.
  - rewrite requestUserCount_run. unfold rooms_get.
    destruct (rooms st !! id0) as [ms|] eqn:Hr.
    + cbn [outcome registry events size_of]. intros _ Hid.
      rewrite last_count_one. case_decide as Heq; [subst id0; left|by right].
      assert (ms = members) as -> by congruence.
      pose proof (wf_nonempty st Hwf id members Hr). by destruct members.
    + destruct (Js.inherited id0 Js.objectPrototype); [|by right].
      cbn [outcome registry events]. intros _ Hid. right.
      rewrite last_count_one, decide_False; [done|congruence].
  - rewrite upvote_run. destruct (users st !! sid) as [u|].
    + case_bool_decide; [by right|]. cbv zeta.
      destruct (truthy _);
        [destruct (every_upvoted _ _ _) as [[|]| |]|]; try done;
        destruct callback; cbn [is_function app]; by right.
    + destruct callback; [|done]. by right.
Qed.

Lemma run_all_last_count reqs st ev0 :
  reachable st ->
  (forall id members, rooms st !! id = Some members ->
     last_count id ev0 = Some (Z.of_nat (length members))) ->
  outcome (run_all reqs st) = Normal tt ->
  forall id members, rooms (registry (run_all reqs st)) !! id = Some members ->
    last_count id (ev0 ++ events (run_all reqs st))
    = Some (Z.of_nat (length members)).
Proof.
  revert st ev0. induction reqs as [|[sid req] rest IH]; intros st ev0 Hst Hinv.
  - cbn [run_all ret outcome registry events]. rewrite app_nil_r. auto.
  - cbn [run_all]. unfold bind.
    pose proof (handle_last_count st sid req) as Hstep.
    pose proof (reachable_handle st sid req Hst) as Hst1.
    destruct (handle sid req st) as [[[]| |] st1 ev1];
      cbn [outcome registry events] in *; [|done..].
    specialize (IH st1 (ev0 ++ ev1)%list Hst1).
    destruct (run_all rest st1) as [o st2 ev2];
      cbn [outcome registry events] in *.
    intros Hdone id members Hr. rewrite app_assoc. apply IH; [|done..].
    intros id' ms Hms. rewrite last_count_app.
    destruct (Hstep id' ms (reachable_wf st Hst) eq_refl Hms) as [->|[-> Hold]];
      [done|by apply Hinv].
Qed.

(** X13. Over any run of requests that all complete, starting from the
    empty registry, the last count each live room was told is the size of
    its member set. *)
Theorem last_count_is_room_size reqs id members :
  outcome (run_all reqs initial) = Normal tt ->
  rooms (registry (run_all reqs initial)) !! id = Some members ->
  last_count id (events (run_all reqs initial)) = Some (Z.of_nat (length members)).
Proof.
  intros Hdone Hr.
  apply (run_all_last_count reqs initial [] reachable_initial); [|done..].
  intros id' ms. cbn [initial rooms]. by rewrite lookup_empty.
Qed.

Lemma last_count_is_room_size_witness :
  outcome (run_all leaving_run initial) = Normal tt /\
  rooms (registry (run_all leaving_run initial)) !! "0AFF" = Some ["A"; "B"] /\
  last_count "0AFF" (events (run_all leaving_run initial)) = Some 2.
Proof.
  assert (Hr : rooms (registry (run_all leaving_run initial)) !! "0AFF"
               = Some ["A"; "B"]) by (by rewrite leaving_run_rooms).
  split_and!; [exact leaving_run_completes|exact Hr|].
  exact (last_count_is_room_size leaving_run "0AFF" ["A"; "B"]
           leaving_run_completes Hr).
Defined.

(** ** Replies and their addressee *)

(** X14. A request is acknowledged at most once, and only to its sender;
    [disconnect] and [requestUserCount] never acknowledge, and no handler
    acknowledges a sender that gave no function. *)
Theorem handle_acknowledges_sender_once st sid req :
  let replies := acks (events (handle sid req st)) in
  (replies = [] \/ exists reply, replies = [(sid, reply)]) /\
  match req with
  | Disconnect | RequestUserCount _ _ => replies = []
  | CreateRoom callback _ | JoinRoom _ callback | SetUserServer _ callback
  | SetUserLibrary _ callback | Upvote _ callback =>
      callback = Js.NotAFunction -> replies = []
  end.
Proof.
  cbv zeta.
  destruct req as [|callback draws|id0 callback|v callback|v callback
                  |id0 callback|id0 callback]; cbn [handle];
    rewrite ?disconnect_run, ?createRoom_cases, ?joinRoom_run,
      ?setUserServer_run, ?setUserLibrary_run, ?requestUserCount_run,
      ?upvote_run; cbv zeta; unfold call, emit, throw;
    try destruct callback; cbn [is_function];
    repeat case_match; cbn [events app acks];
    (split; [eauto|done]).
Qed.

(** ** The first revision *)

(** X15. In the first revision, [joinRoom] never answers a join of a live
    room: it adds the socket id to the room and gives it a [User], then
    raises, because [getPlexInformationForRoom] is called without the room
    id and finds no room under [undefined]; no reply and no count is
    sent. *)
Theorem initial_joinRoom_never_answers st sid id members callback :
  rooms st !! id = Some members ->
  rooms st !! "undefined" = None ->
  Initial.joinRoom sid id callback st
  = mkRun (Throw Js.TypeError)
      (mkRegistry (<[id := set_add sid members]> (rooms st))
         (<[sid := createUser id]> (users st)))
      [].
Proof.
  intros Hr Hnone. destruct st as [rs us]; cbn [rooms users] in *.
  assert (Hid : id <> "undefined") by (intros ->; congruence).
  unfold Initial.joinRoom. run. rewrite (rooms_get_own _ _ _ Hr). run.
  rewrite (rooms_get_own _ _ _ Hr). run.
  rewrite (rooms_get_missing _ "undefined");
    [|by rewrite lookup_insert_ne|reflexivity].
  reflexivity.
Qed.

Lemma initial_joinRoom_never_answers_witness :
  rooms room_of_two !! "0AFF" = Some ["A"; "B"] /\
  rooms room_of_two !! "undefined" = None /\
  outcome (Initial.joinRoom "C" "0AFF" Js.AckFunction room_of_two)
  = Throw Js.TypeError.
Proof.
  assert (Hr : rooms room_of_two !! "0AFF" = Some ["A"; "B"])
    by (by rewrite room_of_two_rooms).
  assert (Hnone : rooms room_of_two !! "undefined" = None)
    by (by rewrite room_of_two_rooms).
  split_and!; [exact Hr|exact Hnone|].
  by rewrite (initial_joinRoom_never_answers room_of_two "C" "0AFF" ["A"; "B"]
                Js.AckFunction Hr Hnone).
Defined.
